(** * Budget-constrained furniture combination optimizer

    A shallow embedding of [furniture_combination_optimizer.py] and the
    properties of its enumeration, filtering, ranking and pricing code.

    Conventions of the embedding.
    - Python [float] and [int] quantities that take part in price and
      similarity arithmetic are rationals ([Q]): sums, comparisons and the
      two-decimal [round] are exact.  Equality of such quantities is [Qeq].
    - [str] is [string]; [str.lower] acts on the ASCII letters.
    - A Python [dict] whose iteration order matters (the similarity
      results) is an insertion-ordered association list with the
      operations of module [PyDict]; a [dict] only used through [get] and
      item assignment (the price lookup) is a [gmap].
    - Code inside [try ... except Exception] runs in the [option] monad:
      [None] stands for a raised exception ([KeyError], [IndexError]).
    - Files are the already parsed rows they hold; [None] is a missing
      file.  Console output is not modelled, except for the outcome that
      [main] reports. *)

From Stdlib Require Import QArith Qround Ascii String Sorting.Sorted.
From Stdlib Require Import Permutation Lqa Lia.
From stdpp Require Import base option list strings gmap sorting.

Local Open Scope Q_scope.

(** ** Numbers *)

#[global] Instance Qle_decision (x y : Q) : Decision (x <= y) :=
  decide (Qnum x * QDen y ≤ Qnum y * QDen x)%Z.
#[global] Instance Qlt_decision (x y : Q) : Decision (x < y) :=
  decide (Qnum x * QDen y < Qnum y * QDen x)%Z.
#[global] Instance Qeq_decision (x y : Q) : Decision (x == y) :=
  decide (Qnum x * QDen y = Qnum y * QDen x)%Z.

(** Python's [round(x, ndigits)]: the nearest multiple of [10^-ndigits],
    ties going to the even multiple. *)
Definition round_half_even (x : Q) : Z :=
  let f := Qfloor x in
  let r := x - inject_Z f in
  if decide (r < 1 # 2) then f
  else if decide ((1 # 2) < r) then (f + 1)%Z
  else if Z.even f then f else (f + 1)%Z.

Definition py_round (x : Q) (ndigits : nat) : Q :=
  let scale := inject_Z (10 ^ Z.of_nat ndigits) in
  inject_Z (round_half_even (x * scale)) / scale.

(** ** Strings *)

Module PyStr.

Definition lower_ascii (c : ascii) : ascii :=
  let n := nat_of_ascii c in
  if decide (65 ≤ n ∧ n ≤ 90)%nat then ascii_of_nat (n + 32) else c.

(** [s.lower()] *)
Fixpoint lower (s : string) : string :=
  match s with
  | EmptyString => EmptyString
  | String c s' => String (lower_ascii c) (lower s')
  end.

(** Scan of [s.replace(old, new)] for a non-empty [old]; [skip] counts
    the characters of a matched occurrence still to be dropped. *)
Fixpoint replace_from (old new : string) (skip : nat) (s : string) : string :=
  match s with
  | EmptyString => EmptyString
  | String c s' =>
      match skip with
      | S k => replace_from old new k s'
      | O =>
          if String.prefix old s
          then new +:+ replace_from old new (String.length old - 1) s'
          else String c (replace_from old new 0 s')
      end
  end.

Fixpoint intersperse (new s : string) : string :=
  match s with
  | EmptyString => EmptyString
  | String c s' => String c (new +:+ intersperse new s')
  end.

(** [s.replace(old, new)]: every occurrence, leftmost first, not
    overlapping; an empty [old] matches before and after each character. *)
Definition replace (old new s : string) : string :=
  match old with
  | EmptyString => new +:+ intersperse new s
  | String _ _ => replace_from old new 0 s
  end.

Definition is_space (c : ascii) : bool :=
  let n := nat_of_ascii c in
  bool_decide ((9 ≤ n ∧ n ≤ 13) ∨ (28 ≤ n ∧ n ≤ 32))%nat.

Fixpoint lstrip_list (l : list ascii) : list ascii :=
  match l with
  | c :: l' => if is_space c then lstrip_list l' else l
  | [] => []
  end.

(** [s.strip()] *)
Definition strip (s : string) : string :=
  string_of_list_ascii
    (rev (lstrip_list (rev (lstrip_list (list_ascii_of_string s))))).

End PyStr.

(** ** Insertion-ordered dictionaries *)

Module PyDict.

Definition dict (V : Type) : Type := list (string * V).

Definition keys {V} (d : dict V) : list string := d.*1.
Definition values {V} (d : dict V) : list V := d.*2.

(** [d[k]]; [None] is [KeyError]. *)
Fixpoint getitem {V} (d : dict V) (k : string) : option V :=
  match d with
  | [] => None
  | (k', v) :: d' => if decide (k = k') then Some v else getitem d' k
  end.

(** [d[k] = v]: an existing key keeps its position, a new key goes last. *)
Fixpoint setitem {V} (d : dict V) (k : string) (v : V) : dict V :=
  match d with
  | [] => [(k, v)]
  | (k', v') :: d' =>
      if decide (k = k') then (k, v) :: d' else (k', v') :: setitem d' k v
  end.

(** Keys of a dictionary are pairwise distinct. *)
Definition wf {V} (d : dict V) : Prop := NoDup (keys d).

End PyDict.
Import PyDict.

(** ** [itertools.product] and [enumerate] *)

Module Itertools.

(** The documented equivalent of [itertools.product] applied to the pools:
    [result = [[]]; for pool in pools:
       result = [x+[y] for x in result for y in pool]]. *)
Definition product {A} (pools : list (list A)) : list (list A) :=
  foldl (λ result pool, x ← result; y ← pool; [x ++ [y]]) [[]] pools.

Definition enumerate {A} (l : list A) : list (nat * A) :=
  zip (seq 0 (length l)) l.

End Itertools.
Import Itertools.

(** ** [list.sort(key=..., reverse=True)]

    Python's sort is stable, and [reverse=True] keeps elements with equal
    keys in their original order.  The model is the stable insertion sort
    by non-increasing key; [sort_desc_unique] below shows that a sorted
    list that keeps equal keys in order is the list returned here. *)

Section Sort.
Context {A : Type} (key : A → Q).

Fixpoint insert_desc (x : A) (l : list A) : list A :=
  match l with
  | [] => [x]
  | y :: l' =>
      if decide (key y <= key x) then x :: y :: l' else y :: insert_desc x l'
  end.

Definition sort_desc (l : list A) : list A := foldr insert_desc [] l.
End Sort.

(** ** Records of the optimizer *)

(** One entry of [similarity_results[furniture_type]]. *)
Record candidate := Candidate {
  catalog_number : string;
  similarity_score : Q;
  rank : Z
}.

(** One entry of [combination_details]. *)
Record detail := Detail {
  d_furniture_type : string;
  d_catalog_number : string;
  d_similarity_score : Q;
  d_rank : Z;
  d_price : Q
}.

(** One entry of [combinations]. *)
Record combination := Combination {
  total_price : Q;
  total_similarity : Q;
  items : list detail;
  budget_remaining : Q
}.

(** ** [FurnitureCombinationOptimizer.generate_combinations]

    The list [all_items] that the function builds first is not read
    afterwards and has no counterpart here. *)

Section GenerateCombinations.
Variable similarity_results : dict (list candidate).
Variable budget : Q.
Variable price_lookup : gmap string Q.

(** The inner loop over [enumerate(combination)]; the state is
    [(total_price, total_similarity, combination_details)]. *)
Definition evaluate_step (furniture_types : list string)
    (acc : option (Q * Q * list detail)) (ix : nat * candidate)
    : option (Q * Q * list detail) :=
  '(tp, ts, combination_details) ← acc;
  furniture_type ← furniture_types !! ix.1;
  let item := ix.2 in
  let price := default 0 (price_lookup !! catalog_number item) in
  Some (tp + price, ts + similarity_score item,
        combination_details ++
          [Detail furniture_type (catalog_number item)
                  (similarity_score item) (rank item) price]).

Definition evaluate (furniture_types : list string)
    (combination : list candidate) : option (Q * Q * list detail) :=
  foldl (evaluate_step furniture_types) (Some (0, 0, [])) (enumerate combination).

(** [total_price <= self.budget and total_price > 0] *)
Definition within_budget (tp : Q) : Prop := tp <= budget ∧ 0 < tp.

#[global] Instance within_budget_dec tp : Decision (within_budget tp).
Proof. unfold within_budget. apply _. Defined.

(** The outer loop over the Cartesian product; the state is
    [combinations]. *)
Definition combine_step (furniture_types : list string)
    (acc : option (list combination)) (combo : list candidate)
    : option (list combination) :=
  combinations ← acc;
  '(tp, ts, combination_details) ← evaluate furniture_types combo;
  Some (if decide (within_budget tp)
        then combinations ++ [Combination tp ts combination_details (budget - tp)]
        else combinations).

(** The body of the [try] block. *)
Definition generate_combinations_try : option (list combination) :=
  let furniture_types := keys similarity_results in
  pools ← mapM (getitem similarity_results) furniture_types;
  combinations ← foldl (combine_step furniture_types) (Some []) (product pools);
  Some (sort_desc total_similarity combinations).

(** [except Exception: return []] *)
Definition generate_combinations : list combination :=
  default [] generate_combinations_try.

End GenerateCombinations.

(** ** The fallback price estimator *)

(** The table [price_ranges] of [_get_estimated_price_for_type]. *)
Definition price_ranges : gmap string (Z * Z) :=
  list_to_map
    [("sofa"%string, (800, 2500)%Z); ("chair"%string, (200, 800)%Z);
     ("table"%string, (300, 1200)%Z); ("lamp"%string, (100, 400)%Z);
     ("rug"%string, (200, 800)%Z); ("bench"%string, (300, 1000)%Z);
     ("nightstand"%string, (150, 600)%Z); ("lighting"%string, (100, 400)%Z)].

(** The [(min_price, max_price)] chosen for a furniture type. *)
Definition price_range_for (furniture_type : string) : Z * Z :=
  let base_type := PyStr.lower furniture_type in
  match price_ranges !! base_type with
  | Some range => range
  | None => (200, 800)%Z
  end.

Definition _get_estimated_price_for_type (furniture_type : string) (rank : Z) : Q :=
  let '(min_price, max_price) := price_range_for furniture_type in
  let rank_factor := inject_Z (4 - rank) / 3 in
  let price_range := (max_price - min_price)%Z in
  let estimated_price := inject_Z min_price + inject_Z price_range * rank_factor in
  py_round estimated_price 2.

(** [_get_estimated_prices]: the estimator runs on [enumerate(items)], the
    position of each item in its list. *)
Definition _get_estimated_prices (similarity_results : dict (list candidate))
    : gmap string Q :=
  foldl (λ price_lookup '(furniture_type, items),
           foldl (λ price_lookup '(i, item),
                    <[catalog_number item :=
                        _get_estimated_price_for_type furniture_type (Z.of_nat i)]>
                      price_lookup)
                 price_lookup (enumerate items))
        ∅ similarity_results.

(** ** [get_furniture_prices] *)

(** A row of the master catalog: the catalog number and the price cell,
    [None] when the cell is empty, [nan] or not a number (the row is then
    skipped). *)
Definition catalog_row : Type := string * option Q.

Definition load_catalog_prices (rows : list catalog_row) : gmap string Q :=
  foldl (λ price_lookup row,
           match row.2 with
           | Some price => <[row.1 := price]> price_lookup
           | None => price_lookup
           end)
        ∅ rows.

(** The counters [(matched_items, total_items)]. *)
Definition count_matches (similarity_results : dict (list candidate))
    (price_lookup : gmap string Q) : nat * nat :=
  foldl (λ counts '(furniture_type, items),
           foldl (λ '(matched_items, total_items) item,
                    (if decide (is_Some (price_lookup !! catalog_number item))
                     then S matched_items else matched_items,
                     S total_items))
                 counts items)
        (0%nat, 0%nat) similarity_results.

Definition get_furniture_prices (similarity_results : dict (list candidate))
    (catalog : option (list catalog_row)) : gmap string Q :=
  match catalog with
  | None => _get_estimated_prices similarity_results
  | Some rows =>
      let price_lookup := load_catalog_prices rows in
      let '(matched_items, total_items) :=
        count_matches similarity_results price_lookup in
      if decide (matched_items = 0%nat)
      then _get_estimated_prices similarity_results
      else price_lookup
  end.

(** The "Sample prices" report of [get_furniture_prices]: for the first
    item of each furniture type, the price shown and whether it is marked
    as estimated. *)
Definition sample_prices (similarity_results : dict (list candidate))
    (price_lookup : gmap string Q) : list (string * Q * bool) :=
  omap (λ '(furniture_type, items),
          match items with
          | [] => None
          | sample_item :: _ =>
              let sample_price :=
                default 0 (price_lookup !! catalog_number sample_item) in
              if decide (sample_price == 0)
              then Some (furniture_type,
                         _get_estimated_price_for_type furniture_type 0, true)
              else Some (furniture_type, sample_price, false)
          end)
       similarity_results.

(** ** [load_similarity_results] *)

(** A row of [similarity_results.csv]. *)
Record similarity_row := SimilarityRow {
  r_image_name : string;
  r_catalog_number : string;
  r_similarity_score : Q;
  r_rank : Z
}.

(** [Series.unique()]: distinct values in order of first appearance. *)
Definition unique (l : list string) : list string :=
  foldl (λ seen x, if decide (x ∈ seen) then seen else seen ++ [x]) [] l.

(** [df[df['image_name'] == image_name].head(3)] turned into entries. *)
Definition top_results (df : list similarity_row) (image_name : string)
    : list candidate :=
  (λ row, Candidate (r_catalog_number row) (r_similarity_score row) (r_rank row))
    <$> take 3 (filter (λ row, r_image_name row = image_name) df).

(** [None] is the result [False]; [Some] is [True] together with the new
    value of [self.similarity_results]. *)
Definition load_similarity_results (csv : option (list similarity_row))
    : option (dict (list candidate)) :=
  match csv with
  | None => None
  | Some [] => None
  | Some df =>
      Some (foldl (λ similarity_results image_name,
                     let furniture_type :=
                       PyStr.replace "_extracted_grayscale.png" "" image_name in
                     foldl (λ similarity_results entry,
                              setitem similarity_results furniture_type
                                (default [] (getitem similarity_results furniture_type)
                                   ++ [entry]))
                           (setitem similarity_results furniture_type [])
                           (top_results df image_name))
                  [] (unique (r_image_name <$> df)))
  end.

(** ** [save_combinations_to_csv] *)

Record csv_row := CsvRow {
  combination_rank : nat;
  c_total_price : Q;
  c_total_similarity : Q;
  c_budget_remaining : Q;
  c_furniture_type : string;
  c_catalog_number : string;
  c_similarity_score : Q;
  c_item_rank : Z;
  c_price : Q
}.

(** The rows written after the header, in order. *)
Definition save_combinations_to_csv (combinations : list combination)
    : list csv_row :=
  '(i, combination) ← enumerate combinations;
  item ← items combination;
  [CsvRow (S i) (total_price combination) (total_similarity combination)
          (budget_remaining combination) (d_furniture_type item)
          (d_catalog_number item) (d_similarity_score item) (d_rank item)
          (d_price item)].

(** ** The master query log and [main] *)

(** A row of the master query log, with the columns the optimizer reads
    or writes. *)
Record query_row := QueryRow {
  request_number : Z;
  selected_sufficed : string;
  q_budget : string
}.

(** The files of a run. [similarity_csv n] is
    [querries/query_n/similarity_results.csv]. *)
Record files := Files {
  master_log : option (list query_row);
  similarity_csv : Z → option (list similarity_row);
  catalog_csv : option (list catalog_row)
}.

(** What [main] reports before it returns. *)
Inductive outcome :=
| NoPendingQuery        (* "No queries pending combination optimization" *)
| LoadFailed            (* "Failed to load similarity results" *)
| PricesFailed          (* "Failed to load furniture prices" *)
| NoCombinationsFound   (* "No combinations found within budget" *)
| Success.              (* "SUCCESS!" *)

(** The result of a run: the outcome, the rows of
    [furniture_combinations.csv] when the file was written, and the
    master query log as the run leaves it. *)
Record run := Run {
  reported : outcome;
  written : option (list csv_row);
  log_after : option (list query_row)
}.

Section Main.
(** Python's [float] on strings; [None] is [ValueError]. *)
Variable py_float : string → option Q.

Definition parse_budget (budget_str : string) : Q :=
  let budget_clean :=
    PyStr.strip (PyStr.replace "," "" (PyStr.replace "$" "" budget_str)) in
  default 0 (py_float budget_clean).

(** Returns the query number together with the budget it stores. *)
Definition check_master_query_log (log : option (list query_row))
    : option (Z * Q) :=
  df ← log;
  let pending_selection :=
    filter (λ row, PyStr.lower (selected_sufficed row) = "no"%string) df in
  latest_query ← last pending_selection;
  Some (request_number latest_query, parse_budget (q_budget latest_query)).

Definition update_selection_status (log : option (list query_row))
    (query_number : Z) (status : string) : option (list query_row) :=
  fmap (M:=list)
    (λ row, if decide (request_number row = query_number)
            then QueryRow (request_number row) status (q_budget row)
            else row)
  <$> log.

(** The rest of [main] once [load_similarity_results] has set
    [self.similarity_results]. *)
Definition main_loaded (log : option (list query_row)) (query_number : Z)
    (budget : Q) (similarity_results : dict (list candidate))
    (catalog : option (list catalog_row)) : run :=
  let price_lookup := get_furniture_prices similarity_results catalog in
  if decide (price_lookup = ∅)
  then Run PricesFailed None log
  else
    let combinations :=
      generate_combinations similarity_results budget price_lookup in
    match combinations with
    | [] =>
        Run NoCombinationsFound None
            (update_selection_status log query_number "no")
    | _ :: _ =>
        Run Success (Some (save_combinations_to_csv combinations))
            (update_selection_status log query_number "yes")
    end.

Definition main (fs : files) : run :=
  match check_master_query_log (master_log fs) with
  | None => Run NoPendingQuery None (master_log fs)
  | Some (query_number, budget) =>
      if decide (query_number = 0%Z)
      then Run NoPendingQuery None (master_log fs)
      else
        match load_similarity_results (similarity_csv fs query_number) with
        | None => Run LoadFailed None (master_log fs)
        | Some similarity_results =>
            main_loaded (master_log fs) query_number budget
                        similarity_results (catalog_csv fs)
        end
  end.

End Main.

(** ** Closed forms and predicates used in the statements *)

(** The order of a list sorted with [reverse=True]. *)
Definition key_ge {A} (key : A → Q) (x y : A) : Prop := key y <= key x.

Definition Qsum (l : list Q) : Q := foldr Qplus 0 l.

(** Lexicographic order on tuples of list positions. *)
Fixpoint lex_lt (a b : list nat) : Prop :=
  match a, b with
  | x :: a', y :: b' => (x < y)%nat ∨ (x = y ∧ lex_lt a' b')
  | _, _ => False
  end.

(** The tuples of the product, each element with its position in its pool. *)
Definition tagged_product {A} (ps : list (list A)) : list (list (nat * A)) :=
  product (enumerate <$> ps).

Section Forms.
Variable similarity_results : dict (list candidate).
Variable budget : Q.
Variable price_lookup : gmap string Q.

(** [price_lookup.get(catalog_number, 0)] *)
Definition price_of (item : candidate) : Q :=
  default 0 (price_lookup !! catalog_number item).

Definition detail_of (furniture_type : string) (item : candidate) : detail :=
  Detail furniture_type (catalog_number item) (similarity_score item)
         (rank item) (price_of item).

Definition sum_prices (combo : list candidate) : Q :=
  foldl (λ acc item, acc + price_of item) 0 combo.

Definition sum_similarity (combo : list candidate) : Q :=
  foldl (λ acc item, acc + similarity_score item) 0 combo.

(** The dictionary built for one tuple of the product. *)
Definition build (furniture_types : list string) (combo : list candidate)
    : combination :=
  Combination (sum_prices combo) (sum_similarity combo)
              (zip_with detail_of furniture_types combo)
              (budget - sum_prices combo).

(** The pools handed to [itertools.product]. *)
Definition pools : list (list candidate) :=
  (λ ft, default [] (getitem similarity_results ft)) <$> keys similarity_results.

(** Every tuple evaluated, before the budget test. *)
Definition raw_combinations : list combination :=
  build (keys similarity_results) <$> product pools.

Definition affordable (c : combination) : Prop :=
  within_budget budget (total_price c).
End Forms.

(** The estimate as the specification words it, for a list of [K]
    candidates and the 1-based rank [r]:
    [min_price + (max_price - min_price) * (K - r + 1) / K]. *)
Definition spec_estimated_price (min_price max_price K r : Z) : Q :=
  inject_Z min_price
  + (inject_Z max_price - inject_Z min_price) * (inject_Z (K - r + 1) / inject_Z K).

(** The assignments [price_lookup[catalog_number] = estimated_price] that
    [_get_estimated_prices] performs, in order. *)
Definition estimate_assignments (similarity_results : dict (list candidate))
    : list (string * Q) :=
  '(furniture_type, items) ← similarity_results;
  '(i, item) ← enumerate items;
  [(catalog_number item,
    _get_estimated_price_for_type furniture_type (Z.of_nat i))].

(** The ranges that [price_range_for] can return. *)
Definition range_list : list (Z * Z) :=
  [(800, 2500); (200, 800); (300, 1200); (100, 400); (300, 1000); (150, 600)]%Z.

(** The dictionary key that the loader derives from an image name. *)
Definition furniture_type_of (image_name : string) : string :=
  PyStr.replace "_extracted_grayscale.png" "" image_name.

(** ** The scenarios of the specification *)

Module Scenario.
Definition S1 : candidate := Candidate "S1" 0.9 1.
Definition S2 : candidate := Candidate "S2" 0.8 2.
Definition T1 : candidate := Candidate "T1" 0.7 1.

(** Scenario A: two sofas and one table, with their catalog prices. *)
Definition store_A : dict (list candidate) :=
  [("sofa"%string, [S1; S2]); ("table"%string, [T1])].

Definition prices_A : gmap string Q :=
  list_to_map [("S1"%string, 1000); ("S2"%string, 1200); ("T1"%string, 500)].

(** The combination of [S1] and [T1] as the enumerator builds it. *)
Definition combo_S1_T1 : combination :=
  build 1600 prices_A ["sofa"; "table"]%string [S1; T1].
End Scenario.

Module Gap.
(** One sofa and one table; the master catalog prices the sofa only. *)
Definition store : dict (list candidate) :=
  [("sofa"%string, [Scenario.S1]); ("table"%string, [Scenario.T1])].

Definition catalog : option (list catalog_row) :=
  Some [("S1"%string, Some 1000)].
End Gap.

Module Run.
(** A pending query with a budget that does not parse, and the results
    and catalog files of Scenario A. *)
Definition log : option (list query_row) :=
  Some [QueryRow 7 "no" "unknown"].

Definition results : list similarity_row :=
  [SimilarityRow "sofa_extracted_grayscale.png" "S1" 0.9 1;
   SimilarityRow "sofa_extracted_grayscale.png" "S2" 0.8 2;
   SimilarityRow "table_extracted_grayscale.png" "T1" 0.7 1].

Definition catalog : option (list catalog_row) :=
  Some [("S1"%string, Some 1000); ("S2"%string, Some 1200);
        ("T1"%string, Some 500)].

Definition fs : files :=
  Files log (λ n, if decide (n = 7%Z) then Some results else None) catalog.

(** A [float] that accepts no string. *)
Definition no_float (s : string) : option Q := None.

End Run.

(** ** Closed forms used in the further properties *)

(** The rows that [save_combinations_to_csv] writes for the combination
    at position [i] of the list. *)
Definition rows_of (i : nat) (c : combination) : list csv_row :=
  (λ item, CsvRow (S i) (total_price c) (total_similarity c)
                  (budget_remaining c) (d_furniture_type item)
                  (d_catalog_number item) (d_similarity_score item)
                  (d_rank item) (d_price item))
  <$> items c.

(** A row of the master query log that waits for optimization:
    [selected_sufficed], in lower case, is ["no"]. *)
Definition pending (row : query_row) : Prop :=
  PyStr.lower (selected_sufficed row) = "no"%string.

(** A string without the occurrences of one character. *)
Fixpoint without (c : ascii) (s : string) : string :=
  match s with
  | EmptyString => EmptyString
  | String a s' => if decide (a = c) then without c s' else String a (without c s')
  end.

(** * Properties *)

(** ** The model on small inputs *)

Example product_order :
  product [[1; 2]; [3; 4; 5]]%nat
  = [[1; 3]; [1; 4]; [1; 5]; [2; 3]; [2; 4]; [2; 5]]%nat.
Proof. reflexivity. Qed.

Example product_of_nothing : product (A:=nat) [] = [[]].
Proof. reflexivity. Qed.

Example sort_desc_is_stable :
  sort_desc fst [(1, "a"); (2, "b"); (1, "c"); (3, "d"); (2, "e")]%string
  = [(3, "d"); (2, "b"); (2, "e"); (1, "a"); (1, "c")]%string.
Proof. reflexivity. Qed.

Example round_to_cents :
  py_round (9200 # 3) 2 = 3066.67 ∧ py_round (1 # 8) 2 = 0.12
  ∧ py_round (3 # 8) 2 = 0.38 ∧ py_round (- (2 # 3)) 2 = -0.67.
Proof. repeat split. Qed.

Example replace_suffix :
  PyStr.replace "_extracted_grayscale.png" "" "sofa_extracted_grayscale.png"
  = "sofa"%string
  ∧ PyStr.replace "," "" (PyStr.replace "$" "" "$1,600") = "1600"%string
  ∧ PyStr.replace "aa" "b" "aaaaa" = "bba"%string.
Proof. repeat split. Qed.

Example setitem_keeps_position :
  setitem [("sofa"%string, 1%nat); ("table"%string, 2%nat)] "sofa" 3%nat
  = [("sofa"%string, 3%nat); ("table"%string, 2%nat)].
Proof. reflexivity. Qed.

Example sofa_estimates :
  _get_estimated_price_for_type "Sofa" <$> [0; 1; 2; 3]%Z
  = [3066.67; 2500.00; 1933.33; 1366.67].
Proof. by vm_compute. Qed.

Example load_scenario_A :
  load_similarity_results (Some Run.results) = Some Scenario.store_A.
Proof. reflexivity. Qed.

Example scenario_B_no_combination :
  generate_combinations Scenario.store_A 100 Scenario.prices_A = [].
Proof. reflexivity. Qed.

(** ** Facts about the Python containers *)

Section ProductFacts.
Context {A : Type}.
Implicit Types (pools : list (list A)) (l t : list A).

Lemma list_bind_assoc {X Y Z} (f : X → list Y) (g : Y → list Z) (l : list X) :
  (l ≫= f) ≫= g = l ≫= (λ x, f x ≫= g).
Proof.
  induction l as [|x l IH]; [done|].
  rewrite !bind_cons, bind_app. by f_equal.
Qed.

Lemma product_foldl pools (acc : list (list A)) :
  foldl (λ result pool, x ← result; y ← pool; [x ++ [y]]) acc pools
  = a ← acc; t ← product pools; [a ++ t].
Proof.
  revert acc. induction pools as [|p ps IH]; intros acc.
  - cbn. induction acc as [|a acc IHa]; [done|].
    cbn. rewrite app_nil_r. by f_equal.
  - unfold product. cbn [foldl]. rewrite !IH. cbn.
    rewrite !app_nil_r, list_bind_assoc.
    apply list_bind_ext; [intros a|done].
    rewrite !list_bind_assoc. apply list_bind_ext; [intros y|done].
    rewrite !bind_singleton, list_bind_assoc.
    apply list_bind_ext; [intros t|done].
    by rewrite bind_singleton, <- app_assoc.
Qed.

(** The first pool varies slowest, the last pool fastest. *)
Lemma product_cons p pools :
  product (p :: pools) = x ← p; t ← product pools; [x :: t].
Proof.
  unfold product at 1. cbn [foldl]. rewrite product_foldl. cbn.
  rewrite app_nil_r, list_bind_assoc.
  apply list_bind_ext; [intros y|done]. by rewrite bind_singleton.
Qed.

Lemma product_cons_fmap p pools :
  product (p :: pools) = x ← p; cons x <$> product pools.
Proof.
  rewrite product_cons. apply list_bind_ext; [intros x|done].
  induction (product pools) as [|t l IH]; [done|].
  rewrite bind_cons, IH. done.
Qed.

Lemma product_length_elem pools t :
  t ∈ product pools → length t = length pools.
Proof.
  revert t. induction pools as [|p ps IH]; intros t.
  - intros ->%list_elem_of_singleton. done.
  - rewrite product_cons_fmap.
    intros (x & (t' & -> & Ht)%list_elem_of_fmap & _)%list_elem_of_bind.
    cbn. f_equal. by apply IH.
Qed.

Lemma product_length pools :
  length (product pools) = foldr (λ p n, length p * n)%nat 1%nat pools.
Proof.
  induction pools as [|p ps IH]; [done|].
  rewrite product_cons. cbn [foldr]. rewrite <- IH. clear IH.
  induction p as [|x p IHp]; [done|].
  rewrite bind_cons, length_app, IHp. cbn [length Nat.mul]. f_equal.
  clear IHp. induction (product ps) as [|t l IHl]; [done|].
  rewrite bind_cons, length_app, IHl. done.
Qed.
End ProductFacts.

(** ** Facts about the sort *)

Section SortFacts.
Context {A : Type} (key : A → Q).
Implicit Types (x y : A) (l : list A).

Lemma insert_desc_perm x l : insert_desc key x l ≡ₚ x :: l.
Proof.
  induction l as [|y l IH]; [done|]. cbn.
  destruct (decide (key y <= key x)); [done|].
  rewrite IH. apply Permutation_swap.
Qed.

Lemma sort_desc_perm l : sort_desc key l ≡ₚ l.
Proof.
  induction l as [|x l IH]; [done|].
  change (sort_desc key (x :: l)) with (insert_desc key x (sort_desc key l)).
  by rewrite insert_desc_perm, IH.
Qed.

Lemma insert_desc_sorted x l :
  StronglySorted (key_ge key) l → StronglySorted (key_ge key) (insert_desc key x l).
Proof.
  induction 1 as [|y l Hl IH Hy]; cbn; [repeat constructor|].
  destruct (decide (key y <= key x)) as [Hle|Hnle].
  - constructor; [by constructor|]. constructor; [done|].
    eapply Forall_impl; [exact Hy|]. intros z Hz. unfold key_ge in *.
    by eapply Qle_trans.
  - constructor; [done|]. rewrite insert_desc_perm. constructor; [|done].
    unfold key_ge. apply Qlt_le_weak, Qnot_le_lt, Hnle.
Qed.

Lemma sort_desc_sorted l : StronglySorted (key_ge key) (sort_desc key l).
Proof.
  induction l as [|x l IH]; [constructor|].
  change (sort_desc key (x :: l)) with (insert_desc key x (sort_desc key l)).
  by apply insert_desc_sorted.
Qed.

(** Stability: the elements of any one key keep their order. *)
Lemma insert_desc_stable (s : Q) x l :
  filter (λ a, key a == s) (insert_desc key x l)
  = filter (λ a, key a == s) (x :: l).
Proof.
  induction l as [|y l IH]; [done|]. cbn.
  destruct (decide (key y <= key x)) as [Hle|Hnle]; [done|].
  rewrite filter_cons, IH, !filter_cons.
  destruct (decide (key y == s)) as [Hy|]; [|done].
  destruct (decide (key x == s)) as [Hx|]; [|done].
  destruct Hnle. rewrite Hy, Hx. apply Qle_refl.
Qed.

Lemma sort_desc_stable (s : Q) l :
  filter (λ a, key a == s) (sort_desc key l) = filter (λ a, key a == s) l.
Proof.
  induction l as [|x l IH]; [done|].
  change (sort_desc key (x :: l)) with (insert_desc key x (sort_desc key l)).
  by rewrite insert_desc_stable, !filter_cons, IH.
Qed.

Lemma length_sort_desc l : length (sort_desc key l) = length l.
Proof. apply Permutation_length, sort_desc_perm. Qed.

Lemma elem_of_sort_desc x l : x ∈ sort_desc key l ↔ x ∈ l.
Proof. by rewrite sort_desc_perm. Qed.
End SortFacts.

Section SortUnique.
Context {A : Type} (key : A → Q).
Implicit Types (x y : A) (l : list A).

Lemma filter_key_head x l :
  filter (λ a, key a == key x) (x :: l)
  = x :: filter (λ a, key a == key x) l.
Proof. by rewrite filter_cons_True by reflexivity. Qed.

Lemma sorted_head_ge x y l :
  StronglySorted (key_ge key) (y :: l) → x ∈ y :: l → key x <= key y.
Proof.
  intros [Hy _]%StronglySorted_cons [->|Hx]%elem_of_cons; [apply Qle_refl|].
  by eapply Forall_forall in Hy.
Qed.

(** A sorted list is determined by the sequences of its elements of each
    key: every stable sort returns what [sort_desc] returns. *)
Lemma sorted_stable_unique l1 l2 :
  StronglySorted (key_ge key) l1 → StronglySorted (key_ge key) l2 →
  (∀ s : Q, filter (λ a, key a == s) l1 = filter (λ a, key a == s) l2) →
  l1 = l2.
Proof.
  intros Hs1. revert l2. induction Hs1 as [|x l1 Hs1 IH Hx]; intros l2 Hs2 Heq.
  - destruct l2 as [|y l2]; [done|].
    specialize (Heq (key y)). by rewrite filter_key_head in Heq.
  - destruct l2 as [|y l2].
    { specialize (Heq (key x)). by rewrite filter_key_head in Heq. }
    assert (x ∈ y :: l2) as Hxin.
    { pose proof (Heq (key x)) as H. rewrite filter_key_head in H.
      eapply (list_elem_of_filter (λ a, key a == key x)). rewrite <- H. left. }
    assert (y ∈ x :: l1) as Hyin.
    { pose proof (Heq (key y)) as H. rewrite filter_key_head in H.
      eapply (list_elem_of_filter (λ a, key a == key y)). rewrite H. left. }
    assert (key x == key y) as Hxy.
    { apply Qle_antisym.
      - by eapply sorted_head_ge.
      - eapply sorted_head_ge; [|exact Hyin]. by constructor. }
    assert (x = y) as <-.
    { pose proof (Heq (key x)) as H. rewrite filter_key_head in H.
      rewrite filter_cons_True in H by (by symmetry). by injection H. }
    f_equal. apply IH; [by apply StronglySorted_cons in Hs2 as [_ ?]|].
    intros s. specialize (Heq s). rewrite !filter_cons in Heq.
    destruct (decide (key x == s)); [by injection Heq|done].
Qed.

Lemma sort_desc_unique l l' :
  StronglySorted (key_ge key) l' →
  (∀ s : Q, filter (λ a, key a == s) l' = filter (λ a, key a == s) l) →
  l' = sort_desc key l.
Proof.
  intros Hs Heq. apply sorted_stable_unique; [done|apply sort_desc_sorted|].
  intros s. by rewrite sort_desc_stable.
Qed.
End SortUnique.

(** ** Facts about dictionaries *)

Section DictFacts.
Context {V : Type}.
Implicit Types (d : dict V) (k : string) (v : V).

Lemma getitem_keys d k : k ∈ keys d → is_Some (getitem d k).
Proof.
  unfold keys. induction d as [|[k' v] d IH]; cbn; [by intros ?%elem_of_nil|].
  intros Hk. destruct (decide (k = k')); [by eexists|].
  apply IH. apply elem_of_cons in Hk as [?|?]; done.
Qed.

Lemma getitem_elem_of d k v : getitem d k = Some v → (k, v) ∈ d.
Proof.
  induction d as [|[k' v'] d IH]; cbn; [done|].
  destruct (decide (k = k')) as [->|]; [intros [= ->]; left|right; auto].
Qed.

(** With distinct keys, [[d[k] for k in d.keys()]] is [d.values()]. *)
Lemma getitem_wf_values d :
  wf d → (λ k, getitem d k) <$> keys d = Some <$> values d.
Proof.
  unfold wf, keys, values. induction d as [|[k v] d IH]; [done|].
  cbn. intros [Hk Hd]%NoDup_cons. rewrite decide_True by done. f_equal.
  rewrite <- IH by done. apply list_fmap_ext. intros i x Hx.
  rewrite decide_False; [done|]. intros ->. apply Hk.
  by eapply list_elem_of_lookup_2.
Qed.

Lemma keys_setitem d k v :
  keys (setitem d k v) = if decide (k ∈ keys d) then keys d else keys d ++ [k].
Proof.
  unfold keys. induction d as [|[k' v'] d IH]; cbn.
  - by rewrite decide_False by apply not_elem_of_nil.
  - destruct (decide (k = k')) as [->|Hne]; cbn.
    + by rewrite decide_True by left.
    + rewrite IH. destruct (decide (k ∈ d.*1)).
      * by rewrite decide_True by (by right).
      * rewrite decide_False; [done|]. by intros [?|?]%elem_of_cons.
Qed.

Lemma wf_setitem d k v : wf d → wf (setitem d k v).
Proof.
  unfold wf. rewrite keys_setitem. destruct (decide (k ∈ keys d)); [done|].
  intros Hd. apply NoDup_app. split_and!; [done| |apply NoDup_singleton].
  intros x Hx ->%list_elem_of_singleton. done.
Qed.

Lemma getitem_setitem d k k' v :
  getitem (setitem d k v) k' = if decide (k' = k) then Some v else getitem d k'.
Proof.
  induction d as [|[k0 v0] d IH]; cbn.
  - by destruct (decide (k' = k)).
  - destruct (decide (k = k0)) as [->|Hne]; cbn.
    + by destruct (decide (k' = k0)).
    + rewrite IH. destruct (decide (k' = k0)) as [->|]; [|done].
      by rewrite decide_False by done.
Qed.

Lemma elem_of_setitem d k v k' v' :
  (k', v') ∈ setitem d k v → (k' = k ∧ v' = v) ∨ (k', v') ∈ d.
Proof.
  induction d as [|[k0 v0] d IH]; cbn.
  - intros [=]%list_elem_of_singleton. by left.
  - destruct (decide (k = k0)) as [->|Hne].
    + intros [[=]|?]%elem_of_cons; [by left|right; by right].
    + intros [[=]|[?|?]%IH]%elem_of_cons; subst;
        [right; by left|by left|right; by right].
Qed.
End DictFacts.

(** ** The enumerator in closed form *)

Section EnumeratorFacts.
Variable similarity_results : dict (list candidate).
Variable budget : Q.
Variable price_lookup : gmap string Q.

Lemma evaluate_foldl fts combo n tp ts ds :
  (n + length combo ≤ length fts)%nat →
  foldl (evaluate_step price_lookup fts) (Some (tp, ts, ds))
        (zip (seq n (length combo)) combo)
  = Some (foldl (λ acc item, acc + price_of price_lookup item) tp combo,
          foldl (λ acc item, acc + similarity_score item) ts combo,
          ds ++ zip_with (detail_of price_lookup) (drop n fts) combo).
Proof.
  revert n tp ts ds. induction combo as [|item combo IH]; intros n tp ts ds Hn.
  - cbn. destruct (drop n fts); by rewrite app_nil_r.
  - cbn in Hn. cbn [length seq zip zip_with foldl].
    destruct (lookup_lt_is_Some_2 fts n) as [ft Hft]; [lia|].
    unfold evaluate_step at 2. cbn. rewrite Hft. cbn.
    rewrite IH by lia. rewrite <- app_assoc. cbn.
    by rewrite (drop_S _ _ _ Hft).
Qed.

Lemma evaluate_Some fts combo :
  (length combo ≤ length fts)%nat →
  evaluate price_lookup fts combo
  = Some (sum_prices price_lookup combo, sum_similarity combo,
          zip_with (detail_of price_lookup) fts combo).
Proof. intros. unfold evaluate, enumerate. by rewrite evaluate_foldl. Qed.

Lemma combine_foldl fts (acc : list combination) (combos : list (list candidate)) :
  Forall (λ combo, length combo ≤ length fts)%nat combos →
  foldl (combine_step budget price_lookup fts) (Some acc) combos
  = Some (acc ++ filter (affordable budget) (build budget price_lookup fts <$> combos)).
Proof.
  intros Hlen. revert acc.
  induction Hlen as [|combo combos Hc _ IH]; intros acc.
  - by rewrite app_nil_r.
  - cbn [foldl]. unfold combine_step at 2. cbn.
    rewrite evaluate_Some by done. cbn.
    unfold affordable at 1. cbn [build total_price].
    destruct (decide (within_budget budget (sum_prices price_lookup combo))).
    + rewrite IH, <- app_assoc. done.
    + by rewrite IH.
Qed.

Lemma pools_mapM :
  mapM (getitem similarity_results) (keys similarity_results)
  = Some (pools similarity_results).
Proof.
  unfold pools. apply mapM_Some, Forall2_fmap_r, Forall_Forall2_diag.
  apply Forall_forall. intros k Hin.
  destruct (getitem_keys _ _ Hin) as [v Hv]. simpl. by rewrite Hv.
Qed.

(** No exception is raised inside the [try] block, and the function
    returns the affordable tuples of the product, sorted. *)
Theorem generate_combinations_eq :
  generate_combinations similarity_results budget price_lookup
  = sort_desc total_similarity
      (filter (affordable budget)
              (raw_combinations similarity_results budget price_lookup)).
Proof.
  unfold generate_combinations, generate_combinations_try. cbn zeta.
  rewrite pools_mapM. cbn. rewrite combine_foldl; [done|].
  apply Forall_forall. intros combo ->%product_length_elem.
  unfold pools. by rewrite length_fmap.
Qed.

Lemma pools_wf :
  wf similarity_results → pools similarity_results = values similarity_results.
Proof.
  intros Hwf. unfold pools. apply (inj (fmap Some)).
  rewrite <- list_fmap_compose, <- getitem_wf_values by done.
  apply list_fmap_ext. intros i k Hk. simpl.
  destruct (getitem_keys similarity_results k) as [v Hv]; [|by rewrite Hv].
  by eapply list_elem_of_lookup_2.
Qed.

End EnumeratorFacts.

Section EnumeratorSums.
Variable price_lookup : gmap string Q.

Lemma foldl_Qplus {A} (f : A → Q) (a : Q) (l : list A) :
  foldl (λ acc x, acc + f x) a l == a + Qsum (f <$> l).
Proof.
  revert a. induction l as [|x l IH]; intros a.
  - cbn. ring.
  - cbn [foldl]. rewrite IH, fmap_cons. unfold Qsum. cbn [foldr]. ring.
Qed.

Lemma sum_prices_Qsum combo :
  sum_prices price_lookup combo == Qsum (price_of price_lookup <$> combo).
Proof. unfold sum_prices. rewrite foldl_Qplus. ring. Qed.


Lemma details_prices fts combo :
  length combo = length fts →
  d_price <$> zip_with (detail_of price_lookup) fts combo
  = price_of price_lookup <$> combo.
Proof.
  revert fts. induction combo as [|item combo IH]; intros [|ft fts] [=]; [done|].
  cbn. f_equal. by apply IH.
Qed.

Lemma details_length fts combo :
  length combo = length fts →
  length (zip_with (detail_of price_lookup) fts combo) = length fts.
Proof. intros H. rewrite length_zip_with, H. lia. Qed.
End EnumeratorSums.

Section EnumeratorClaims.
Variable similarity_results : dict (list candidate).
Variable budget : Q.
Variable price_lookup : gmap string Q.

Lemma elem_of_raw_combinations c :
  c ∈ raw_combinations similarity_results budget price_lookup ↔
  ∃ combo, c = build budget price_lookup (keys similarity_results) combo
           ∧ combo ∈ product (pools similarity_results)
           ∧ length combo = length (keys similarity_results).
Proof.
  unfold raw_combinations. rewrite list_elem_of_fmap. split.
  - intros (combo & -> & Hin). exists combo. split_and!; [done..|].
    rewrite (product_length_elem _ _ Hin). unfold pools. by rewrite length_fmap.
  - intros (combo & -> & Hin & _). by exists combo.
Qed.

Lemma elem_of_generate_combinations c :
  c ∈ generate_combinations similarity_results budget price_lookup ↔
  affordable budget c ∧ c ∈ raw_combinations similarity_results budget price_lookup.
Proof.
  by rewrite generate_combinations_eq, elem_of_sort_desc, list_elem_of_filter.
Qed.

(** C1. Every combination returned by [generate_combinations] has
    [0 < total_price <= budget], and its [total_price] is the sum of the
    prices of its items. *)
Theorem emitted_within_budget c :
  c ∈ generate_combinations similarity_results budget price_lookup →
  0 < total_price c ∧ total_price c <= budget
  ∧ total_price c == Qsum (d_price <$> items c).
Proof.
  intros [[Hle Hpos] Hraw]%elem_of_generate_combinations.
  split_and!; [done..|].
  apply elem_of_raw_combinations in Hraw as (combo & -> & _ & Hlen).
  cbn. rewrite details_prices by done. apply sum_prices_Qsum.
Qed.
End EnumeratorClaims.

Lemma emitted_within_budget_witness :
  Scenario.combo_S1_T1
    ∈ generate_combinations Scenario.store_A 1600 Scenario.prices_A
  ∧ 0 < total_price Scenario.combo_S1_T1
  ∧ total_price Scenario.combo_S1_T1 <= 1600.
Proof.
  assert (Scenario.combo_S1_T1
          ∈ generate_combinations Scenario.store_A 1600 Scenario.prices_A) as Hin.
  { vm_compute. apply list_elem_of_here. }
  split; [exact Hin|].
  destruct (emitted_within_budget _ _ _ _ Hin) as (Hpos & Hle & _). by split.
Defined.

Section CountClaims.
Variable similarity_results : dict (list candidate).
Variable budget : Q.
Variable price_lookup : gmap string Q.

Lemma length_filter_all {A} (P : A → Prop) `{!∀ x, Decision (P x)} (l : list A) :
  length (filter P l) = length l ↔ Forall P l.
Proof.
  split.
  - intros Hlen. apply Forall_forall. intros x Hx.
    destruct (decide (P x)) as [|Hn]; [done|].
    pose proof (length_filter_lt P l x Hx Hn). lia.
  - intros Hall. induction Hall as [|x l Hx _ IH]; [done|].
    rewrite filter_cons_True by done. cbn. by rewrite IH.
Qed.

(** C2. The tuples evaluated are as many as the product of the lengths of
    the candidate lists; the result is no longer, and as long exactly when
    every evaluated tuple passes the budget test.  Two categories of three
    candidates give nine tuples whatever the budget and the prices. *)
Theorem raw_count_is_product :
  wf similarity_results →
  let raw := raw_combinations similarity_results budget price_lookup in
  let result := generate_combinations similarity_results budget price_lookup in
  let bound := foldr Nat.mul 1%nat (length <$> values similarity_results) in
  length (product (pools similarity_results)) = bound
  ∧ length raw = bound
  ∧ (length result ≤ bound)%nat
  ∧ (length result = bound ↔ Forall (affordable budget) raw)
  ∧ (length similarity_results = 2%nat →
     Forall (λ entry, length entry.2 = 3%nat) similarity_results →
     length raw = 9%nat).
Proof.
  intros Hwf raw result bound.
  assert (length (product (pools similarity_results)) = bound) as Hprod.
  { rewrite product_length, pools_wf by done. unfold bound.
    induction (values similarity_results) as [|p ps IH]; [done|].
    cbn. by rewrite IH. }
  assert (length raw = bound) as Hraw.
  { unfold raw, raw_combinations. by rewrite length_fmap. }
  assert (length result = length (filter (affordable budget) raw)) as Hres.
  { unfold result. by rewrite generate_combinations_eq, length_sort_desc. }
  split_and!; [done..| | |].
  - rewrite Hres, <- Hraw. apply length_filter.
  - rewrite Hres, <- Hraw. apply length_filter_all.
  - intros Hlen Hall. rewrite Hraw. unfold bound, values.
    destruct similarity_results as [|[k1 p1] [|[k2 p2] [|? ?]]];
      try discriminate Hlen.
    apply Forall_cons in Hall as [H1 [H2 _]%Forall_cons]. cbn in *.
    by rewrite H1, H2.
Qed.
End CountClaims.

Lemma raw_count_is_product_witness :
  wf Scenario.store_A
  ∧ length (product (pools Scenario.store_A)) = 2%nat
  ∧ length (generate_combinations Scenario.store_A 1600 Scenario.prices_A) = 1%nat.
Proof.
  assert (wf Scenario.store_A) as Hwf.
  { by apply (bool_decide_unpack _). }
  split; [exact Hwf|].
  destruct (raw_count_is_product Scenario.store_A 1600 Scenario.prices_A Hwf)
    as (Hprod & _). split; [exact Hprod|]. reflexivity.
Defined.

(** ** The order of enumeration *)

Section ProductOrder.
Context {A B : Type}.

Lemma product_fmap (f : A → B) (ps : list (list A)) :
  product (fmap (M:=list) f <$> ps) = fmap (M:=list) f <$> product ps.
Proof.
  induction ps as [|p ps IH]; [done|].
  rewrite fmap_cons, !product_cons_fmap, IH, list_fmap_bind.
  induction p as [|x p IHp]; [done|].
  rewrite !bind_cons, fmap_app, IHp. f_equal.
  cbn. rewrite <- !list_fmap_compose. done.
Qed.

Lemma product_elem_of (ps : list (list A)) (t : list A) :
  t ∈ product ps → Forall2 (λ p x, x ∈ p) ps t.
Proof.
  revert t. induction ps as [|p ps IH]; intros t.
  - intros ->%list_elem_of_singleton. constructor.
  - rewrite product_cons_fmap.
    intros (x & (t' & -> & Ht')%list_elem_of_fmap & Hx)%list_elem_of_bind.
    constructor; auto.
Qed.
End ProductOrder.

Lemma product_sorted (ps : list (list nat)) :
  Forall (StronglySorted lt) ps → StronglySorted lex_lt (product ps).
Proof.
  induction 1 as [|p ps Hp _ IH].
  - repeat constructor.
  - rewrite product_cons_fmap.
    induction Hp as [|x p Hp IHp Hx]; [constructor|].
    rewrite bind_cons. apply StronglySorted_app_2.
    + intros t1 t2 (a & -> & _)%list_elem_of_fmap
        (y & (b & -> & _)%list_elem_of_fmap & Hy)%list_elem_of_bind.
      left. by eapply Forall_forall in Hx.
    + eapply StronglySorted_fmap; [|exact IH]. intros a b Hab. by right.
    + exact IHp.
Qed.

Lemma seq_sorted (j n : nat) : StronglySorted lt (seq j n).
Proof.
  revert j. induction n as [|n IH]; intros j; cbn; constructor; [apply IH|].
  apply Forall_forall. intros i Hi%elem_of_seq. lia.
Qed.

Section Enumeration.
Context {A : Type}.

Lemma enumerate_lookup (p : list A) (i : nat) (x : A) :
  (i, x) ∈ enumerate p → p !! i = Some x.
Proof.
  unfold enumerate. intros (k & Hk)%list_elem_of_lookup_1.
  apply lookup_zip_Some in Hk as [[-> Hlt]%lookup_seq Hx]. done.
Qed.

Lemma tagged_product_values (ps : list (list A)) :
  (λ t, t.*2) <$> tagged_product ps = product ps.
Proof.
  unfold tagged_product. rewrite <- (product_fmap snd), <- list_fmap_compose.
  f_equal. rewrite <- (list_fmap_id ps) at 2. apply list_fmap_ext.
  intros _ p _. cbn. unfold enumerate. apply snd_zip. by rewrite length_seq.
Qed.

Lemma tagged_product_positions (ps : list (list A)) :
  Forall (λ t, Forall2 (λ p ix, p !! ix.1 = Some ix.2) ps t) (tagged_product ps).
Proof.
  apply Forall_forall. intros t Ht%product_elem_of.
  apply Forall2_fmap_l in Ht. eapply Forall2_impl; [exact Ht|].
  intros p [i x]. apply enumerate_lookup.
Qed.

Lemma tagged_product_sorted (ps : list (list A)) :
  StronglySorted lex_lt ((λ t, t.*1) <$> tagged_product ps).
Proof.
  unfold tagged_product. rewrite <- (product_fmap fst), <- list_fmap_compose.
  apply product_sorted, Forall_fmap, Forall_forall. intros p _. cbn.
  unfold enumerate. rewrite fst_zip by (by rewrite length_seq). apply seq_sorted.
Qed.
End Enumeration.

Section RankingClaims.
Variable similarity_results : dict (list candidate).
Variable budget : Q.
Variable price_lookup : gmap string Q.

(** C3. The returned list is sorted by non-increasing [total_similarity];
    it holds the affordable combinations, and those of equal
    [total_similarity] stay in the order of enumeration.  The enumeration
    follows the tuples of candidate positions in lexicographic order, the
    first category being the most significant. *)
Theorem ranked_by_similarity_stable :
  let result := generate_combinations similarity_results budget price_lookup in
  let raw := raw_combinations similarity_results budget price_lookup in
  StronglySorted (key_ge total_similarity) result
  ∧ result ≡ₚ filter (affordable budget) raw
  ∧ (∀ s : Q,
       filter (λ c, total_similarity c == s) result
       = filter (λ c, total_similarity c == s) (filter (affordable budget) raw))
  ∧ ∃ tagged : list (list (nat * candidate)),
      raw = (λ t, build budget price_lookup (keys similarity_results) (t.*2))
              <$> tagged
      ∧ Forall (λ t, Forall2 (λ pool ix, pool !! ix.1 = Some ix.2)
                             (pools similarity_results) t) tagged
      ∧ StronglySorted lex_lt ((λ t, t.*1) <$> tagged).
Proof.
  intros result raw. unfold result. rewrite generate_combinations_eq.
  split_and!.
  - apply sort_desc_sorted.
  - apply sort_desc_perm.
  - intros s. apply sort_desc_stable.
  - exists (tagged_product (pools similarity_results)). split_and!.
    + unfold raw, raw_combinations.
      rewrite <- (tagged_product_values (pools similarity_results)).
      by rewrite <- list_fmap_compose.
    + apply tagged_product_positions.
    + apply tagged_product_sorted.
Qed.
End RankingClaims.

(** C4. Scenario A: with budget 1600 the only combination returned is
    ([S1], [T1]), of total price 1500 and total similarity 1.6, written
    with combination rank 1; ([S2], [T1]) costs 1700 and is rejected. *)
Theorem scenario_A_single_result :
  let result := generate_combinations Scenario.store_A 1600 Scenario.prices_A in
  let raw := raw_combinations Scenario.store_A 1600 Scenario.prices_A in
  ∃ kept rejected : combination,
    result = [kept]
    ∧ d_catalog_number <$> items kept = ["S1"; "T1"]%string
    ∧ total_price kept == 1500
    ∧ total_similarity kept == 1.6
    ∧ combination_rank <$> save_combinations_to_csv result = [1; 1]%nat
    ∧ raw = [kept; rejected]
    ∧ d_catalog_number <$> items rejected = ["S2"; "T1"]%string
    ∧ total_price rejected == 1700
    ∧ ¬ affordable 1600 rejected
    ∧ rejected ∉ result.
Proof.
  intros result raw.
  exists Scenario.combo_S1_T1,
    (build 1600 Scenario.prices_A ["sofa"; "table"]%string [Scenario.S2; Scenario.T1]).
  assert (result = [Scenario.combo_S1_T1]) as Hres by (by vm_compute).
  rewrite Hres. split_and!; try (by vm_compute).
  - intros [Hle _]. vm_compute in Hle. by apply Hle.
  - intros Hin%list_elem_of_singleton. vm_compute in Hin. discriminate Hin.
Qed.

Section MissingPrices.
Variable similarity_results : dict (list candidate).
Variable budget : Q.
Variable price_lookup : gmap string Q.

Lemma Qsum_priced (combo : list candidate) :
  Qsum (price_of price_lookup <$> combo)
  == Qsum (price_of price_lookup
             <$> filter (λ item, is_Some (price_lookup !! catalog_number item)) combo).
Proof.
  induction combo as [|item combo IH]; [done|].
  rewrite filter_cons. destruct (decide _) as [|Hnone].
  - rewrite !fmap_cons. unfold Qsum in *. cbn [foldr]. by rewrite IH.
  - rewrite fmap_cons. unfold Qsum in *. cbn [foldr]. rewrite IH.
    unfold price_of at 1.
    destruct (price_lookup !! catalog_number item); [by destruct Hnone|].
    cbn. ring.
Qed.

Lemma elem_of_details fts combo d :
  d ∈ zip_with (detail_of price_lookup) fts combo →
  ∃ ft item, item ∈ combo ∧ d = detail_of price_lookup ft item.
Proof.
  intros (ft & item & -> & _ & Hitem)%elem_of_zip_with. by exists ft, item.
Qed.

(** C9. A candidate missing from [price_lookup] enters its combination
    at price 0.  The combination is returned when the prices that are
    present sum to a value strictly between 0 and the budget, its
    [total_price] being that sum; a combination with no price present
    has [total_price] 0 and is not returned. *)
Theorem missing_price_is_zero (combo : list candidate) :
  combo ∈ product (pools similarity_results) →
  let c := build budget price_lookup (keys similarity_results) combo in
  let present :=
    filter (λ item, is_Some (price_lookup !! catalog_number item)) combo in
  (∀ d, d ∈ items c → price_lookup !! d_catalog_number d = None → d_price d = 0)
  ∧ total_price c == Qsum (price_of price_lookup <$> present)
  ∧ (0 < Qsum (price_of price_lookup <$> present) →
     Qsum (price_of price_lookup <$> present) < budget →
     c ∈ generate_combinations similarity_results budget price_lookup)
  ∧ (present = [] →
     total_price c == 0
     ∧ c ∉ generate_combinations similarity_results budget price_lookup).
Proof.
  intros Hcombo c present.
  assert (total_price c == Qsum (price_of price_lookup <$> present)) as Htotal.
  { cbn. rewrite sum_prices_Qsum. apply Qsum_priced. }
  split_and!.
  - intros d (ft & item & _ & ->)%elem_of_details. cbn.
    unfold price_of. by intros ->.
  - exact Htotal.
  - intros Hpos Hlt. apply elem_of_generate_combinations. split.
    + unfold affordable, within_budget. rewrite Htotal.
      split; [by apply Qlt_le_weak|done].
    + apply elem_of_raw_combinations. exists combo. split_and!; [done..|].
      rewrite (product_length_elem _ _ Hcombo). unfold pools.
      by rewrite length_fmap.
  - intros Hnone. rewrite Hnone in Htotal. split; [exact Htotal|].
    intros [[_ Hpos] _]%elem_of_generate_combinations.
    rewrite Htotal in Hpos. by apply Qlt_irrefl in Hpos.
Qed.
End MissingPrices.

Lemma missing_price_is_zero_witness :
  let prices : gmap string Q := {[ "S1"%string := 1000 ]} in
  [Scenario.S1; Scenario.T1] ∈ product (pools Scenario.store_A)
  ∧ build 1600 prices ["sofa"; "table"]%string [Scenario.S1; Scenario.T1]
      ∈ generate_combinations Scenario.store_A 1600 prices.
Proof.
  intros prices.
  assert ([Scenario.S1; Scenario.T1] ∈ product (pools Scenario.store_A)) as Hin.
  { vm_compute. apply list_elem_of_here. }
  split; [exact Hin|].
  destruct (missing_price_is_zero Scenario.store_A 1600 prices _ Hin)
    as (_ & _ & Hemit & _).
  apply Hemit; by vm_compute.
Defined.

(** ** Facts about rounding *)

Lemma round_half_even_close (x : Q) :
  x - (1 # 2) <= inject_Z (round_half_even x)
  ∧ inject_Z (round_half_even x) <= x + (1 # 2).
Proof.
  unfold round_half_even.
  pose proof (Qfloor_le x) as Hlo. pose proof (Qlt_floor x) as Hhi.
  rewrite inject_Z_plus in Hhi. change (inject_Z 1) with 1 in Hhi.
  destruct (decide (x - inject_Z (Qfloor x) < 1 # 2)) as [Hr|Hr].
  { split; lra. }
  destruct (decide ((1 # 2) < x - inject_Z (Qfloor x))) as [Hr'|Hr'].
  { rewrite inject_Z_plus. change (inject_Z 1) with 1. split; lra. }
  apply Qnot_lt_le in Hr, Hr'.
  destruct (Z.even (Qfloor x)).
  - split; lra.
  - rewrite inject_Z_plus. change (inject_Z 1) with 1. split; lra.
Qed.

Lemma py_round_2_grid (x : Q) :
  py_round x 2 = inject_Z (round_half_even (x * 100)) / 100.
Proof. reflexivity. Qed.

Lemma py_round_2_close (x : Q) :
  x - (1 # 200) <= py_round x 2 ∧ py_round x 2 <= x + (1 # 200).
Proof.
  rewrite py_round_2_grid.
  destruct (round_half_even_close (x * 100)) as [Hlo Hhi].
  split.
  - apply Qle_shift_div_l; [done|]. lra.
  - apply Qle_shift_div_r; [done|]. lra.
Qed.

(** ** Facts about the estimator *)

#[global] Instance round_half_even_proper : Proper (Qeq ==> eq) round_half_even.
Proof.
  intros x y Hxy. unfold round_half_even. rewrite <- (Qfloor_comp _ _ Hxy).
  rewrite (decide_ext _ (y - inject_Z (Qfloor x) < 1 # 2)) by (split; lra).
  rewrite (decide_ext ((1 # 2) < _) ((1 # 2) < y - inject_Z (Qfloor x)))
    by (split; lra).
  done.
Qed.

#[global] Instance py_round_proper : Proper (Qeq ==> eq ==> eq) py_round.
Proof.
  intros x y Hxy n ? <-. unfold py_round.
  assert (x * inject_Z (10 ^ Z.of_nat n) == y * inject_Z (10 ^ Z.of_nat n)) as H
    by (apply Qmult_comp; [exact Hxy|reflexivity]).
  by rewrite (round_half_even_proper _ _ H).
Qed.

Ltac in_list :=
  repeat first [apply list_elem_of_here | apply list_elem_of_further].

Lemma price_range_for_cases (furniture_type : string) :
  price_range_for furniture_type ∈ range_list.
Proof.
  unfold price_range_for.
  destruct (price_ranges !! PyStr.lower furniture_type) as [range|] eqn:Hrange.
  - apply elem_of_list_to_map_2 in Hrange.
    apply (list_elem_of_fmap_2 snd) in Hrange. cbn in Hrange.
    repeat (apply elem_of_cons in Hrange as [->|Hrange]); [in_list..|].
    by apply elem_of_nil in Hrange.
  - in_list.
Qed.

Lemma price_range_for_default (furniture_type : string) :
  price_ranges !! PyStr.lower furniture_type = None →
  price_range_for furniture_type = (200, 800)%Z.
Proof. unfold price_range_for. by intros ->. Qed.

Lemma estimate_unfold (furniture_type : string) (r : Z) :
  _get_estimated_price_for_type furniture_type r
  = py_round (spec_estimated_price (price_range_for furniture_type).1
                                   (price_range_for furniture_type).2 3 r) 2.
Proof.
  unfold _get_estimated_price_for_type, spec_estimated_price.
  destruct (price_range_for furniture_type) as [lo hi]. cbn [fst snd].
  apply py_round_proper; [|done].
  replace (3 - r + 1)%Z with (4 - r)%Z by lia.
  unfold Z.sub at 1. rewrite inject_Z_plus, inject_Z_opp. reflexivity.
Qed.
Lemma spec_estimated_price_3 (lo hi r : Z) :
  spec_estimated_price lo hi 3 r
  == inject_Z lo + (inject_Z hi - inject_Z lo) * ((4 - inject_Z r) * (1 # 3)).
Proof.
  unfold spec_estimated_price.
  replace (3 - r + 1)%Z with (4 + - r)%Z by lia.
  rewrite inject_Z_plus, inject_Z_opp. reflexivity.
Qed.

Lemma estimate_close (furniture_type : string) (r : Z) :
  let x := spec_estimated_price (price_range_for furniture_type).1
                                (price_range_for furniture_type).2 3 r in
  x - (1 # 200) <= _get_estimated_price_for_type furniture_type r
  ∧ _get_estimated_price_for_type furniture_type r <= x + (1 # 200).
Proof. intros x. rewrite estimate_unfold. apply py_round_2_close. Qed.

Lemma estimate_decreasing (furniture_type : string) (r1 r2 : Z) :
  (r1 < r2)%Z →
  _get_estimated_price_for_type furniture_type r2
  < _get_estimated_price_for_type furniture_type r1.
Proof.
  intros Hlt.
  destruct (estimate_close furniture_type r1) as [Hlo1 _].
  destruct (estimate_close furniture_type r2) as [_ Hhi2].
  rewrite spec_estimated_price_3 in Hlo1, Hhi2.
  assert (inject_Z r1 + 1 <= inject_Z r2) as Hstep.
  { change 1 with (inject_Z 1). rewrite <- inject_Z_plus, <- Zle_Qle. lia. }
  pose proof (price_range_for_cases furniture_type) as Hcases.
  set (R1 := inject_Z r1) in *. set (R2 := inject_Z r2) in *.
  clearbody R1 R2.
  destruct (price_range_for furniture_type) as [lo hi].
  repeat (apply elem_of_cons in Hcases as [[= -> ->]|Hcases]);
    [cbn [fst snd] in *; unfold inject_Z in *; lra..|].
  by apply elem_of_nil in Hcases.
Qed.

(** ** The estimated price map *)

Section EstimatedPrices.
Implicit Types (m : gmap string Q) (l : list (string * Q)).

Lemma foldl_insert_notin l m k :
  k ∉ l.*1 → foldl (λ m kv, <[kv.1 := kv.2]> m) m l !! k = m !! k.
Proof.
  revert m. induction l as [|[k' v'] l IH]; intros m Hk; [done|].
  cbn in *. apply not_elem_of_cons in Hk as [Hne Hk].
  rewrite IH by done. by rewrite lookup_insert_ne.
Qed.

Lemma foldl_insert_lookup l m k v :
  NoDup (l.*1) → (k, v) ∈ l →
  foldl (λ m kv, <[kv.1 := kv.2]> m) m l !! k = Some v.
Proof.
  revert m. induction l as [|[k' v'] l IH]; intros m Hnd Hin.
  - by apply elem_of_nil in Hin.
  - cbn in *. apply NoDup_cons in Hnd as [Hk' Hnd].
    apply elem_of_cons in Hin as [[= -> ->]|Hin].
    + rewrite foldl_insert_notin by done. apply lookup_insert_eq.
    + by apply IH.
Qed.

Lemma estimated_prices_assignments (similarity_results : dict (list candidate)) :
  _get_estimated_prices similarity_results
  = foldl (λ m kv, <[kv.1 := kv.2]> m) ∅ (estimate_assignments similarity_results).
Proof.
  unfold _get_estimated_prices, estimate_assignments.
  generalize (∅ : gmap string Q).
  induction similarity_results as [|[ft items] sr IH]; intros m; [done|].
  cbn [foldl]. rewrite IH, bind_cons, foldl_app. f_equal.
  generalize (enumerate items). intros ixs. revert m.
  induction ixs as [|[i item] ixs IHi]; intros m; [done|].
  cbn [foldl]. rewrite IHi. done.
Qed.

Lemma estimate_assignments_keys (similarity_results : dict (list candidate)) :
  (estimate_assignments similarity_results).*1
  = catalog_number <$> (similarity_results ≫= snd).
Proof.
  unfold estimate_assignments.
  induction similarity_results as [|[ft items] sr IH]; [done|].
  rewrite !bind_cons, !fmap_app, IH. f_equal. cbn [snd].
  unfold enumerate. generalize 0%nat.
  induction items as [|item items IHi]; intros n; [done|].
  cbn. f_equal. apply IHi.
Qed.

Lemma estimate_assignments_elem_of
    (similarity_results : dict (list candidate)) ft items i item :
  (ft, items) ∈ similarity_results → items !! i = Some item →
  (catalog_number item, _get_estimated_price_for_type ft (Z.of_nat i))
    ∈ estimate_assignments similarity_results.
Proof.
  intros Hft Hitem. unfold estimate_assignments.
  apply list_elem_of_bind. exists (ft, items). split; [|done].
  apply list_elem_of_bind. exists (i, item). split; [by left|].
  unfold enumerate. apply list_elem_of_lookup. exists i.
  apply lookup_zip_Some. split; [|done].
  apply lookup_seq. split; [done|]. by eapply lookup_lt_Some.
Qed.

(** With pairwise distinct catalog numbers, each candidate is priced
    by the estimator applied to its position in its list. *)
Lemma estimated_prices_lookup
    (similarity_results : dict (list candidate)) ft items i item :
  NoDup (catalog_number <$> (similarity_results ≫= snd)) →
  (ft, items) ∈ similarity_results → items !! i = Some item →
  _get_estimated_prices similarity_results !! catalog_number item
  = Some (_get_estimated_price_for_type ft (Z.of_nat i)).
Proof.
  intros Hnd Hft Hitem. rewrite estimated_prices_assignments.
  apply foldl_insert_lookup.
  - by rewrite estimate_assignments_keys.
  - by eapply estimate_assignments_elem_of.
Qed.
End EstimatedPrices.

(** ** The estimator and the rank *)

(** C5 as stated fails.  In Scenario A the second sofa, of rank 2, is
    given the estimate 2500 where the formula gives 5800/3; and the
    estimator applied to the rank 2 itself returns 1933.33, which is not
    5800/3 either. *)
Lemma rank_formula_counterexample :
  ∃ p : Q,
    _get_estimated_prices Scenario.store_A !! catalog_number Scenario.S2 = Some p
    ∧ rank Scenario.S2 = 2%Z
    ∧ price_range_for "sofa" = (800, 2500)%Z
    ∧ ¬ p == spec_estimated_price 800 2500 3 2
    ∧ ¬ _get_estimated_price_for_type "sofa" 2 == spec_estimated_price 800 2500 3 2.
Proof.
  exists 2500.00. split_and!; [by vm_compute..| |]; by vm_compute.
Qed.

(** C5, amended.  For the rank argument [r] it is given, the estimator
    returns [min_price + (max_price - min_price) * (K - r + 1) / K] with
    [K = 3], rounded to two decimals, hence within 0.005 of it; the
    estimate does not increase with [r]; a type outside the table has the
    range (200, 800). *)
Theorem estimate_rounds_rank_formula (furniture_type : string) (r : Z) :
  let min_price := (price_range_for furniture_type).1 in
  let max_price := (price_range_for furniture_type).2 in
  let x := spec_estimated_price min_price max_price 3 r in
  _get_estimated_price_for_type furniture_type r = py_round x 2
  ∧ x - (1 # 200) <= _get_estimated_price_for_type furniture_type r
  ∧ _get_estimated_price_for_type furniture_type r <= x + (1 # 200)
  ∧ (∀ r' : Z, (r <= r')%Z →
       _get_estimated_price_for_type furniture_type r'
       <= _get_estimated_price_for_type furniture_type r)
  ∧ (price_ranges !! PyStr.lower furniture_type = None →
     (min_price, max_price) = (200, 800)%Z).
Proof.
  intros min_price max_price x.
  destruct (estimate_close furniture_type r) as [Hlo Hhi].
  split_and!; [apply estimate_unfold|exact Hlo|exact Hhi| |].
  - intros r' [Hlt| ->]%Z.le_lteq.
    + by apply Qlt_le_weak, estimate_decreasing.
    + apply Qle_refl.
  - intros Hnone. unfold min_price, max_price.
    by rewrite (price_range_for_default _ Hnone).
Qed.

Lemma estimate_rounds_rank_formula_witness :
  _get_estimated_price_for_type "sofa" 2 <= _get_estimated_price_for_type "sofa" 1
  ∧ ((price_range_for "ottoman").1, (price_range_for "ottoman").2) = (200, 800)%Z.
Proof.
  split.
  - apply (estimate_rounds_rank_formula "sofa" 1). lia.
  - apply (estimate_rounds_rank_formula "ottoman" 1). reflexivity.
Defined.

(** ** The estimator and the list position *)

(** C10 as stated fails: the first sofa of Scenario A is estimated at
    3066.67, not at [800 + (2500 - 800) * 4/3]. *)
Lemma first_estimate_counterexample :
  ∃ p : Q,
    _get_estimated_prices Scenario.store_A !! catalog_number Scenario.S1 = Some p
    ∧ Scenario.store_A !! 0%nat = Some ("sofa"%string, [Scenario.S1; Scenario.S2])
    ∧ price_range_for "sofa" = (800, 2500)%Z
    ∧ ¬ p == 800 + (2500 - 800) * (4 / 3).
Proof.
  exists 3066.67. split_and!; [by vm_compute..|]. by vm_compute.
Qed.

(** C10, amended.  [_get_estimated_prices] applies the estimator to the
    position [i] of each candidate in its list, assigning
    [round(min_price + (max_price - min_price) * (4 - i) / 3, 2)]; with
    pairwise distinct catalog numbers this is the price found in the
    returned map.  Every range has [min_price < max_price]; the first
    candidate's estimate is [min_price + (max_price - min_price) * 4/3]
    rounded to two decimals, which exceeds [max_price]; estimates
    decrease strictly with the position. *)
Theorem estimates_use_list_position
    (similarity_results : dict (list candidate))
    (furniture_type : string) (items : list candidate) (i : nat) (item : candidate) :
  (furniture_type, items) ∈ similarity_results →
  items !! i = Some item →
  let min_price := inject_Z (price_range_for furniture_type).1 in
  let max_price := inject_Z (price_range_for furniture_type).2 in
  let estimate (j : nat) :=
    py_round (min_price + (max_price - min_price) * (inject_Z (4 - Z.of_nat j) / 3)) 2 in
  (catalog_number item, estimate i) ∈ estimate_assignments similarity_results
  ∧ _get_estimated_prices similarity_results
    = foldl (λ price_lookup kv, <[kv.1 := kv.2]> price_lookup) ∅
            (estimate_assignments similarity_results)
  ∧ (NoDup (catalog_number <$> (similarity_results ≫= snd)) →
     _get_estimated_prices similarity_results !! catalog_number item
     = Some (estimate i))
  ∧ min_price < max_price
  ∧ estimate 0%nat = py_round (min_price + (max_price - min_price) * (4 / 3)) 2
  ∧ max_price < estimate 0%nat
  ∧ (∀ j k : nat, (j < k)%nat → estimate k < estimate j).
Proof.
  intros Hft Hitem min_price max_price estimate.
  assert (∀ j, estimate j
               = _get_estimated_price_for_type furniture_type (Z.of_nat j)) as Hest.
  { intros j. rewrite estimate_unfold. unfold estimate.
    apply py_round_proper; [|done]. unfold spec_estimated_price.
    by replace (3 - Z.of_nat j + 1)%Z with (4 - Z.of_nat j)%Z by lia. }
  split_and!.
  - rewrite Hest. by eapply estimate_assignments_elem_of.
  - apply estimated_prices_assignments.
  - intros Hnd. rewrite Hest. by eapply estimated_prices_lookup.
  - unfold min_price, max_price. rewrite <- Zlt_Qlt.
    pose proof (price_range_for_cases furniture_type) as Hcases.
    destruct (price_range_for furniture_type) as [lo hi].
    repeat (apply elem_of_cons in Hcases as [[= -> ->]|Hcases]); [done..|].
    by apply elem_of_nil in Hcases.
  - done.
  - rewrite Hest. change (Z.of_nat 0) with 0%Z.
    destruct (estimate_close furniture_type 0) as [Hlo _].
    rewrite spec_estimated_price_3 in Hlo. unfold max_price.
    pose proof (price_range_for_cases furniture_type) as Hcases.
    destruct (price_range_for furniture_type) as [lo hi].
    repeat (apply elem_of_cons in Hcases as [[= -> ->]|Hcases]);
      [cbn [fst snd] in *; unfold inject_Z in *; lra..|].
    by apply elem_of_nil in Hcases.
  - intros j k Hjk. rewrite !Hest. apply estimate_decreasing. lia.
Qed.

Lemma estimates_use_list_position_witness :
  _get_estimated_prices Scenario.store_A !! "S2"%string = Some 2500.00
  ∧ (2500 : Q) < 3066.67.
Proof.
  assert (NoDup (catalog_number <$> (Scenario.store_A ≫= snd))) as Hnd.
  { by apply (bool_decide_unpack _). }
  assert (("sofa"%string, [Scenario.S1; Scenario.S2]) ∈ Scenario.store_A) as Hft.
  { apply list_elem_of_here. }
  destruct (estimates_use_list_position Scenario.store_A "sofa"
              [Scenario.S1; Scenario.S2] 1 Scenario.S2 Hft eq_refl)
    as (_ & _ & Hlookup & _ & _ & Hmax & _).
  split; [exact (Hlookup Hnd)|exact Hmax].
Defined.

(** ** Prices missing from the master catalog *)

Lemma count_matches_empty (similarity_results : dict (list candidate)) :
  (count_matches similarity_results ∅).1 = 0%nat.
Proof.
  unfold count_matches.
  assert (∀ (items : list candidate) (t : nat),
            foldl (λ '(matched_items, total_items) item,
                     (if decide (is_Some ((∅ : gmap string Q) !! catalog_number item))
                      then S matched_items else matched_items,
                      S total_items))
                  (0%nat, t) items
            = (0%nat, (t + length items)%nat)) as Hinner.
  { intros items. induction items as [|item items IH]; intros t.
    - cbn. f_equal. lia.
    - cbn [foldl]. rewrite decide_False by (rewrite lookup_empty; by intros [? ?]).
      rewrite IH. cbn. f_equal. lia. }
  assert (∀ t, ∃ t',
            foldl (λ counts '(furniture_type, items),
                     foldl (λ '(matched_items, total_items) item,
                              (if decide (is_Some ((∅ : gmap string Q)
                                                     !! catalog_number item))
                               then S matched_items else matched_items,
                               S total_items))
                           counts items)
                  (0%nat, t) similarity_results = (0%nat, t')) as Houter.
  { induction similarity_results as [|[ft items] sr IH]; intros t.
    - by exists t.
    - cbn [foldl]. rewrite Hinner. apply IH. }
  destruct (Houter 0%nat) as [t' ->]. done.
Qed.

(** When some catalog number matches, the catalog prices are returned
    as they are: a candidate without a catalog price has no entry. *)
Lemma get_furniture_prices_partial
    (similarity_results : dict (list candidate)) (rows : list catalog_row) :
  (count_matches similarity_results (load_catalog_prices rows)).1 ≠ 0%nat →
  get_furniture_prices similarity_results (Some rows) = load_catalog_prices rows.
Proof.
  intros Hmatched. unfold get_furniture_prices.
  destruct (count_matches _ _) as [matched total]. cbn in Hmatched.
  by rewrite decide_False.
Qed.

(** C6 at the failing input.  The catalog prices [S1] at 1000 and has no
    price for [T1].  [T1] gets no estimate: it enters the combination at
    price 0, and the combination is returned with total price 1000 under
    the budget 1600.  The sample report of [get_furniture_prices] shows
    the estimate 1500 for the same table, and with that estimate the
    combination would cost 2500. *)
Theorem catalog_gap_priced_zero :
  let prices := get_furniture_prices Gap.store Gap.catalog in
  prices !! "S1"%string = Some 1000
  ∧ prices !! "T1"%string = None
  ∧ (∃ c, generate_combinations Gap.store 1600 prices = [c]
          ∧ d_catalog_number <$> items c = ["S1"; "T1"]%string
          ∧ d_price <$> items c = [1000; 0]
          ∧ total_price c == 1000)
  ∧ sample_prices Gap.store prices
    = [("sofa"%string, 1000, false); ("table"%string, 1500.00, true)]
  ∧ _get_estimated_prices Gap.store !! "T1"%string = Some 1500.00
  ∧ generate_combinations Gap.store 1600 (<["T1"%string := 1500.00]> prices) = [].
Proof.
  intros prices. split_and!; try (by vm_compute).
  eexists. split_and!; by vm_compute.
Qed.

(** ** Facts about the loader *)

Lemma setitem_setitem {V} (d : dict V) k v v' :
  setitem (setitem d k v) k v' = setitem d k v'.
Proof.
  induction d as [|[k0 v0] d IH]; cbn.
  - by rewrite decide_True.
  - destruct (decide (k = k0)) as [->|Hne]; cbn.
    + by rewrite decide_True.
    + by rewrite decide_False, IH.
Qed.

Lemma setitem_not_nil {V} (d : dict V) k v : setitem d k v ≠ [].
Proof. destruct d as [|[k0 v0] d]; cbn; [done|]. by destruct (decide (k = k0)). Qed.

Lemma elem_of_unique (l : list string) (x : string) : x ∈ unique l ↔ x ∈ l.
Proof.
  unfold unique.
  assert (∀ seen, x ∈ foldl (λ seen y, if decide (y ∈ seen) then seen
                                        else seen ++ [y]) seen l
                  ↔ x ∈ seen ∨ x ∈ l) as H.
  { induction l as [|y l IH]; intros seen; cbn [foldl].
    - rewrite elem_of_nil. tauto.
    - rewrite IH, elem_of_cons. destruct (decide (y ∈ seen)) as [Hy|Hy].
      + split; [tauto|]. intros [?|[->|?]]; tauto.
      + rewrite elem_of_app, list_elem_of_singleton. tauto. }
  rewrite H, elem_of_nil. tauto.
Qed.

Section Loader.
Variable df : list similarity_row.

Lemma load_entries (similarity_results : dict (list candidate))
    (ft : string) (acc entries : list candidate) :
  foldl (λ similarity_results entry,
           setitem similarity_results ft
             (default [] (getitem similarity_results ft) ++ [entry]))
        (setitem similarity_results ft acc) entries
  = setitem similarity_results ft (acc ++ entries).
Proof.
  revert acc. induction entries as [|entry entries IH]; intros acc.
  - by rewrite app_nil_r.
  - cbn [foldl]. rewrite getitem_setitem, decide_True by done. cbn [default].
    rewrite setitem_setitem, IH, <- app_assoc. done.
Qed.

(** The loop of the loader assigns to each furniture type the first
    three rows of its image name. *)
Lemma load_similarity_results_eq :
  df ≠ [] →
  load_similarity_results (Some df)
  = Some (foldl (λ similarity_results image_name,
                   setitem similarity_results (furniture_type_of image_name)
                           (top_results df image_name))
                [] (unique (r_image_name <$> df))).
Proof.
  intros Hdf. unfold load_similarity_results.
  destruct df as [|row rows] eqn:Edf; [done|]. rewrite <- Edf. f_equal.
  generalize (@nil (string * list candidate)).
  induction (unique (r_image_name <$> df)) as [|name names IH]; intros sr; [done|].
  cbn [foldl]. rewrite <- IH. f_equal. apply (load_entries sr _ []).
Qed.

Lemma top_results_length (image_name : string) :
  image_name ∈ r_image_name <$> df →
  (1 ≤ length (top_results df image_name) ≤ 3)%nat.
Proof.
  intros (row & -> & Hrow)%list_elem_of_fmap. unfold top_results.
  rewrite length_fmap, length_take.
  assert (row ∈ filter (λ row', r_image_name row' = r_image_name row) df) as Hin
    by (by apply list_elem_of_filter).
  destruct (filter _ df); [by apply elem_of_nil in Hin|].
  cbn [length]. lia.
Qed.

Lemma load_fold_invariant (names : list string)
    (similarity_results : dict (list candidate)) :
  let loaded :=
    foldl (λ similarity_results image_name,
             setitem similarity_results (furniture_type_of image_name)
                     (top_results df image_name))
          similarity_results names in
  (wf similarity_results → wf loaded)
  ∧ (∀ ft entries, (ft, entries) ∈ loaded →
       (ft, entries) ∈ similarity_results
       ∨ ∃ name, name ∈ names ∧ entries = top_results df name)
  ∧ (names ≠ [] → loaded ≠ []).
Proof.
  revert similarity_results.
  induction names as [|name names IH]; intros sr loaded.
  - split_and!; [done|by left|done].
  - destruct (IH (setitem sr (furniture_type_of name) (top_results df name)))
      as (Hwf & Hin & Hne). fold loaded in Hwf, Hin, Hne.
    split_and!.
    + intros Hsr. by apply Hwf, wf_setitem.
    + intros ft entries [[[-> ->]|Hold]%elem_of_setitem|(n & Hn & ->)]%Hin.
      * right. exists name. split; [by left|done].
      * by left.
      * right. exists n. split; [by right|done].
    + intros _. destruct names as [|name' names'].
      * apply setitem_not_nil.
      * by apply Hne.
Qed.

(** What the loader returns: distinct furniture types, at least one of
    them, each with one to three candidates. *)
Lemma load_similarity_results_Some (similarity_results : dict (list candidate)) :
  load_similarity_results (Some df) = Some similarity_results →
  wf similarity_results
  ∧ similarity_results ≠ []
  ∧ Forall (λ entry, 1 ≤ length entry.2 ≤ 3)%nat similarity_results.
Proof.
  destruct (decide (df = [])) as [->|Hdf]; [done|].
  rewrite load_similarity_results_eq by done. intros [= <-].
  destruct (load_fold_invariant (unique (r_image_name <$> df)) [])
    as (Hwf & Hin & Hne).
  split_and!.
  - apply Hwf. constructor.
  - apply Hne. destruct df as [|row rows]; [done|].
    intros Hnil.
    assert (r_image_name row ∈ unique (r_image_name <$> row :: rows)) as Hrow
      by (apply elem_of_unique; left).
    rewrite Hnil in Hrow. by apply elem_of_nil in Hrow.
  - apply Forall_forall. intros [ft entries] [Hnil|(name & Hname & ->)]%Hin.
    + by apply elem_of_nil in Hnil.
    + apply top_results_length. by apply elem_of_unique.
Qed.
End Loader.


(** ** Facts about [main] *)

Lemma foldl_insert_not_empty (l : list (string * Q)) (m : gmap string Q) :
  l ≠ [] → foldl (λ m kv, <[kv.1 := kv.2]> m) m l ≠ ∅.
Proof.
  destruct l as [|kv l _] using rev_ind; [done|]. intros _.
  rewrite foldl_app. cbn. apply insert_non_empty.
Qed.

Lemma estimated_prices_not_empty (similarity_results : dict (list candidate)) :
  similarity_results ≠ [] →
  Forall (λ entry, 1 ≤ length entry.2)%nat similarity_results →
  _get_estimated_prices similarity_results ≠ ∅.
Proof.
  intros Hne Hall. rewrite estimated_prices_assignments.
  apply foldl_insert_not_empty. unfold estimate_assignments.
  destruct similarity_results as [|[ft items] sr]; [done|].
  apply Forall_cons in Hall as [Hitems _]. cbn in Hitems.
  destruct items as [|item items]; [cbn in Hitems; lia|]. done.
Qed.

Lemma get_furniture_prices_not_empty
    (similarity_results : dict (list candidate))
    (catalog : option (list catalog_row)) :
  similarity_results ≠ [] →
  Forall (λ entry, 1 ≤ length entry.2)%nat similarity_results →
  get_furniture_prices similarity_results catalog ≠ ∅.
Proof.
  intros Hne Hall. unfold get_furniture_prices.
  destruct catalog as [rows|]; [|by apply estimated_prices_not_empty].
  destruct (count_matches _ _) as [matched total] eqn:Hcount.
  destruct (decide (matched = 0%nat)) as [|Hmatched];
    [by apply estimated_prices_not_empty|].
  intros Hempty. rewrite Hempty in Hcount.
  pose proof (count_matches_empty similarity_results) as H0.
  rewrite Hcount in H0. done.
Qed.

Lemma generate_combinations_none_affordable
    (similarity_results : dict (list candidate)) (budget : Q)
    (price_lookup : gmap string Q) :
  Forall (λ c, ¬ affordable budget c)
         (raw_combinations similarity_results budget price_lookup) →
  generate_combinations similarity_results budget price_lookup = [].
Proof.
  intros Hall. rewrite generate_combinations_eq.
  induction Hall as [|c raw Hc _ IH]; [done|].
  by rewrite filter_cons_False.
Qed.

Lemma not_affordable_zero_budget (budget : Q) (c : combination) :
  budget == 0 → ¬ affordable budget c.
Proof. intros Hb [Hle Hpos]. lra. Qed.


(** ** The outcomes of a run *)


Section RunClaims.
Variable py_float : string → option Q.

Lemma main_loaded_empty log query_number budget similarity_results catalog :
  get_furniture_prices similarity_results catalog ≠ ∅ →
  generate_combinations similarity_results budget
    (get_furniture_prices similarity_results catalog) = [] →
  main_loaded log query_number budget similarity_results catalog
  = Run NoCombinationsFound None (update_selection_status log query_number "no").
Proof.
  intros Hprices Hnone. unfold main_loaded. cbn zeta.
  rewrite decide_False by done. by rewrite Hnone.
Qed.

Lemma main_unfold fs query_number budget :
  check_master_query_log py_float (master_log fs) = Some (query_number, budget) →
  query_number ≠ 0%Z →
  main py_float fs
  = match load_similarity_results (similarity_csv fs query_number) with
    | None => Run LoadFailed None (master_log fs)
    | Some similarity_results =>
        main_loaded (master_log fs) query_number budget similarity_results
                    (catalog_csv fs)
    end.
Proof. intros Hcheck Hqn. unfold main. rewrite Hcheck. by rewrite decide_False. Qed.


(** C8. When the budget is 0, or no evaluated combination passes the
    budget test, the run reports "no combinations found", writes no
    result file and sets the status of the query to "no"; this outcome
    differs from every failure outcome.  A budget string that [float]
    rejects is parsed as 0. *)
Theorem empty_result_is_reported fs query_number budget similarity_results :
  check_master_query_log py_float (master_log fs) = Some (query_number, budget) →
  query_number ≠ 0%Z →
  load_similarity_results (similarity_csv fs query_number)
    = Some similarity_results →
  budget == 0
  ∨ Forall (λ c, ¬ affordable budget c)
      (raw_combinations similarity_results budget
         (get_furniture_prices similarity_results (catalog_csv fs))) →
  generate_combinations similarity_results budget
    (get_furniture_prices similarity_results (catalog_csv fs)) = []
  ∧ main py_float fs
    = Run NoCombinationsFound None
          (update_selection_status (master_log fs) query_number "no")
  ∧ reported (main py_float fs) ≠ LoadFailed
  ∧ reported (main py_float fs) ≠ PricesFailed
  ∧ reported (main py_float fs) ≠ NoPendingQuery
  ∧ (∀ budget_str,
       py_float (PyStr.strip (PyStr.replace "," ""
                                (PyStr.replace "$" "" budget_str))) = None →
       parse_budget py_float budget_str = 0).
Proof.
  intros Hcheck Hqn Hload Hbudget.
  assert (generate_combinations similarity_results budget
            (get_furniture_prices similarity_results (catalog_csv fs)) = [])
    as Hnone.
  { apply generate_combinations_none_affordable.
    destruct Hbudget as [Hzero|Hall]; [|done].
    apply Forall_forall. intros c _. by apply not_affordable_zero_budget. }
  assert (main py_float fs
          = Run NoCombinationsFound None
                (update_selection_status (master_log fs) query_number "no"))
    as Hmain.
  { rewrite (main_unfold _ _ _ Hcheck Hqn), Hload.
    apply main_loaded_empty; [|done].
    destruct (similarity_csv fs query_number) as [df|]; [|done].
    destruct (load_similarity_results_Some df _ Hload) as (_ & Hne & Hall).
    apply get_furniture_prices_not_empty; [done|].
    eapply Forall_impl; [exact Hall|]. intros entry. cbn. lia. }
  split_and!; [done|done|by rewrite Hmain..|].
  intros budget_str Hfloat. unfold parse_budget. by rewrite Hfloat.
Qed.
End RunClaims.


Lemma empty_result_is_reported_witness :
  check_master_query_log Run.no_float (master_log Run.fs) = Some (7%Z, 0)
  ∧ load_similarity_results (similarity_csv Run.fs 7) = Some Scenario.store_A
  ∧ main Run.no_float Run.fs
    = Run NoCombinationsFound None (Some [QueryRow 7 "no" "unknown"]).
Proof.
  assert (check_master_query_log Run.no_float (master_log Run.fs) = Some (7%Z, 0))
    as Hcheck by reflexivity.
  assert (load_similarity_results (similarity_csv Run.fs 7) = Some Scenario.store_A)
    as Hload by reflexivity.
  split; [exact Hcheck|]. split; [exact Hload|].
  destruct (empty_result_is_reported Run.no_float Run.fs 7%Z 0 Scenario.store_A
              Hcheck ltac:(lia) Hload ltac:(left; reflexivity))
    as (_ & Hmain & _).
  exact Hmain.
Defined.

Section WrittenRows.
Variable py_float : string → option Q.

Lemma elem_of_save_combinations (combinations : list combination) (row : csv_row) :
  row ∈ save_combinations_to_csv combinations →
  ∃ c, c ∈ combinations
       ∧ c_total_price row = total_price c
       ∧ c_budget_remaining row = budget_remaining c.
Proof.
  unfold save_combinations_to_csv.
  intros ([i c] & Hrow & Hc)%list_elem_of_bind.
  apply list_elem_of_bind in Hrow as (d & ->%list_elem_of_singleton & _).
  exists c. split; [|done]. unfold enumerate in Hc.
  by apply elem_of_zip_r in Hc.
Qed.

(** X8. Every row that a run writes carries a total price that is
    positive and within the budget parsed from the master query log. *)
Lemma written_rows_within_budget (fs : files) (rows : list csv_row) :
  written (main py_float fs) = Some rows →
  ∃ query_number budget,
    check_master_query_log py_float (master_log fs) = Some (query_number, budget)
    ∧ reported (main py_float fs) = Success
    ∧ ∀ row, row ∈ rows → 0 < c_total_price row ∧ c_total_price row <= budget.
Proof.
  unfold main.
  destruct (check_master_query_log py_float (master_log fs))
    as [[qn budget]|]; [|done].
  destruct (decide (qn = 0%Z)); [done|].
  destruct (load_similarity_results (similarity_csv fs qn)) as [sr|]; [|done].
  unfold main_loaded. cbn zeta.
  destruct (decide (get_furniture_prices sr (catalog_csv fs) = ∅)); [done|].
  destruct (generate_combinations sr budget _) as [|c0 cs] eqn:Hgc; [done|].
  cbn [written reported]. intros [= <-]. exists qn, budget. split_and!; [done..|].
  intros row (c & Hc & -> & _)%elem_of_save_combinations.
  rewrite <- Hgc in Hc.
  apply elem_of_generate_combinations in Hc as [[Hle Hpos] _]. done.
Qed.
End WrittenRows.

(** * Further properties of the optimizer *)

(** ** The enumerator *)


Lemma details_types (price_lookup : gmap string Q) fts combo :
  length combo = length fts →
  d_furniture_type <$> zip_with (detail_of price_lookup) fts combo = fts.
Proof.
  revert fts. induction combo as [|item combo IH]; intros [|ft fts] [=]; [done|].
  cbn. f_equal. by apply IH.
Qed.


Section EnumeratorExtras.
Variable similarity_results : dict (list candidate).
Variable budget : Q.
Variable price_lookup : gmap string Q.

(** X1. The [try] block of [generate_combinations] always runs to its
    [return]: the lookups [self.similarity_results[ft]] and
    [furniture_types[i]] succeed, and the [except] branch is not taken. *)
Theorem try_block_returns :
  generate_combinations_try similarity_results budget price_lookup
  = Some (generate_combinations similarity_results budget price_lookup).
Proof.
  unfold generate_combinations, generate_combinations_try. cbn zeta.
  rewrite pools_mapM. cbn. rewrite combine_foldl; [done|].
  apply Forall_forall. intros combo ->%product_length_elem.
  unfold pools. by rewrite length_fmap.
Qed.

Lemma pools_selection (combo : list candidate) :
  combo ∈ product (pools similarity_results) →
  Forall2 (λ ft item, ∃ pool, getitem similarity_results ft = Some pool
                              ∧ item ∈ pool)
          (keys similarity_results) combo.
Proof.
  intros Hsel%product_elem_of. unfold pools in Hsel.
  apply Forall2_fmap_l in Hsel.
  assert (∀ fts, Forall (λ ft, ft ∈ keys similarity_results) fts →
            Forall2 (λ ft item,
                       item ∈ default [] (getitem similarity_results ft))
                    fts combo →
            Forall2 (λ ft item, ∃ pool,
                       getitem similarity_results ft = Some pool ∧ item ∈ pool)
                    fts combo) as Hgen.
  { clear Hsel. intros fts Hkeys Hsel.
    induction Hsel as [|ft item fts combo Hitem _ IH]; [constructor|].
    apply Forall_cons in Hkeys as [Hft Hkeys].
    constructor; [|by apply IH].
    destruct (getitem_keys _ _ Hft) as [pool Hpool]. rewrite Hpool in Hitem.
    by exists pool. }
  apply Hgen; [by apply Forall_forall|done].
Qed.

(** X2. A returned combination holds exactly one item per furniture
    type, in the order of the dictionary: each item is a candidate of the
    list stored under its type, with that candidate's catalog number,
    score and rank, at the price [price_lookup.get(catalog_number, 0)]. *)
Theorem one_item_per_furniture_type (c : combination) :
  c ∈ generate_combinations similarity_results budget price_lookup →
  d_furniture_type <$> items c = keys similarity_results
  ∧ Forall (λ d, ∃ pool item,
                getitem similarity_results (d_furniture_type d) = Some pool
                ∧ item ∈ pool
                ∧ d_catalog_number d = catalog_number item
                ∧ d_similarity_score d = similarity_score item
                ∧ d_rank d = rank item
                ∧ d_price d = default 0 (price_lookup !! catalog_number item))
           (items c).
Proof.
  intros [_ Hraw]%elem_of_generate_combinations.
  apply elem_of_raw_combinations in Hraw as (combo & -> & Hsel & Hlen).
  cbn [items build]. split; [by apply details_types|].
  apply pools_selection in Hsel.
  induction Hsel as [|ft item fts combo' (pool & Hpool & Hitem) _ IH];
    [constructor|].
  cbn. constructor.
  - by exists pool, item.
  - apply IH. by injection Hlen.
Qed.
End EnumeratorExtras.
Section EnumeratorExtras2.
Variable similarity_results : dict (list candidate).
Variable budget : Q.
Variable price_lookup : gmap string Q.



(** X5. The first combination of the result has the highest total
    similarity of all evaluated combinations that pass the budget test. *)
Theorem first_is_best (best : combination) (rest : list combination) (c : combination) :
  generate_combinations similarity_results budget price_lookup = best :: rest →
  c ∈ raw_combinations similarity_results budget price_lookup →
  affordable budget c →
  total_similarity c <= total_similarity best.
Proof.
  intros Hgc Hraw Hc.
  assert (c ∈ best :: rest) as Hin.
  { rewrite <- Hgc. by apply elem_of_generate_combinations. }
  pose proof (sort_desc_sorted total_similarity
                (filter (affordable budget)
                   (raw_combinations similarity_results budget price_lookup)))
    as Hsorted.
  rewrite <- generate_combinations_eq, Hgc in Hsorted.
  apply StronglySorted_cons in Hsorted as [Hbest _].
  apply elem_of_cons in Hin as [->|Hin]; [apply Qle_refl|].
  by eapply Forall_forall in Hbest.
Qed.

(** X7. Nothing is returned when the budget is not positive, and nothing
    when the dictionary has no furniture type: the one empty tuple of the
    product has total price 0. *)
Theorem nothing_to_return :
  budget <= 0 ∨ similarity_results = [] →
  generate_combinations similarity_results budget price_lookup = [].
Proof.
  intros [Hb| ->].
  - apply generate_combinations_none_affordable, Forall_forall.
    intros c _ [Hle Hpos]. lra.
  - apply generate_combinations_none_affordable.
    constructor; [|constructor]. by intros [_ Hpos].
Qed.
End EnumeratorExtras2.

Section BudgetMonotone.
Variable similarity_results : dict (list candidate).
Variable price_lookup : gmap string Q.

(** X6. A larger budget loses nothing: every combination returned under
    a budget is returned under any larger budget, with the same items and
    totals and the remaining budget recomputed, and the result is at
    least as long. *)
Theorem larger_budget_keeps_combinations (b1 b2 : Q) (c : combination) :
  b1 <= b2 →
  c ∈ generate_combinations similarity_results b1 price_lookup →
  Combination (total_price c) (total_similarity c) (items c) (b2 - total_price c)
    ∈ generate_combinations similarity_results b2 price_lookup
  ∧ (length (generate_combinations similarity_results b1 price_lookup)
     ≤ length (generate_combinations similarity_results b2 price_lookup))%nat.
Proof.
  intros Hb [[Hle Hpos] Hraw]%elem_of_generate_combinations. split.
  - apply elem_of_raw_combinations in Hraw as (combo & -> & Hsel & Hlen).
    apply elem_of_generate_combinations. split.
    + split; cbn [build total_price] in *; [lra|done].
    + apply elem_of_raw_combinations. by exists combo.
  - rewrite !generate_combinations_eq, !length_sort_desc.
    unfold raw_combinations.
    induction (product (pools similarity_results)) as [|combo combos IH];
      [done|].
    rewrite !fmap_cons, !filter_cons.
    destruct (decide (affordable b1 _)) as [[Hle' Hpos']|].
    + rewrite decide_True; [cbn; lia|].
      split; cbn [build total_price] in *; [lra|done].
    + destruct (decide (affordable b2 _)); cbn; lia.
Qed.
End BudgetMonotone.
Lemma product_NoDup {A} (ps : list (list A)) :
  Forall NoDup ps → NoDup (product ps).
Proof.
  induction 1 as [|p ps Hp _ IH]; [apply NoDup_singleton|].
  rewrite product_cons_fmap. apply NoDup_bind; [| |done].
  - intros x1 x2 t _ _ (t1 & -> & _)%list_elem_of_fmap
      (t2 & [= -> _] & _)%list_elem_of_fmap. done.
  - intros x _. apply NoDup_fmap_2; [|done]. by intros ?? [=].
Qed.

Lemma details_inj (price_lookup : gmap string Q) fts combo1 combo2 :
  length combo1 = length fts → length combo2 = length fts →
  zip_with (detail_of price_lookup) fts combo1
  = zip_with (detail_of price_lookup) fts combo2 →
  combo1 = combo2.
Proof.
  revert combo1 combo2.
  induction fts as [|ft fts IH]; intros [|i1 c1] [|i2 c2] [=] [=]; [done|].
  cbn. intros [= Hcn Hsim Hrank _ Htl]. f_equal; [|by apply IH].
  destruct i1, i2. cbn in *. by subst.
Qed.

Section Distinct.
Variable similarity_results : dict (list candidate).
Variable budget : Q.
Variable price_lookup : gmap string Q.

(** X9. When no list of the dictionary holds the same candidate twice,
    no combination is returned twice. *)
Theorem no_combination_twice :
  (∀ ft pool, getitem similarity_results ft = Some pool → NoDup pool) →
  NoDup (generate_combinations similarity_results budget price_lookup).
Proof.
  intros Hpools. rewrite generate_combinations_eq, sort_desc_perm.
  apply NoDup_filter. unfold raw_combinations.
  apply NoDup_fmap_2_strong.
  - intros combo1 combo2 H1%product_length_elem H2%product_length_elem [= _ _ Hd _].
    unfold pools in H1, H2. rewrite length_fmap in H1, H2.
    by eapply details_inj.
  - apply product_NoDup. unfold pools. apply Forall_fmap, Forall_forall.
    intros ft Hft. cbn. destruct (getitem_keys _ _ Hft) as [pool Hpool].
    rewrite Hpool. cbn. by eapply Hpools.
Qed.
End Distinct.

Lemma one_item_per_furniture_type_witness :
  Scenario.combo_S1_T1
    ∈ generate_combinations Scenario.store_A 1600 Scenario.prices_A
  ∧ d_furniture_type <$> items Scenario.combo_S1_T1 = ["sofa"; "table"]%string.
Proof.
  assert (Scenario.combo_S1_T1
          ∈ generate_combinations Scenario.store_A 1600 Scenario.prices_A) as Hin.
  { vm_compute. apply list_elem_of_here. }
  split; [exact Hin|].
  exact (proj1 (one_item_per_furniture_type _ _ _ _ Hin)).
Defined.



Lemma first_is_best_witness :
  generate_combinations Scenario.store_A 5000 Scenario.prices_A
  = [build 5000 Scenario.prices_A ["sofa"; "table"]%string [Scenario.S1; Scenario.T1];
     build 5000 Scenario.prices_A ["sofa"; "table"]%string [Scenario.S2; Scenario.T1]]
  ∧ 1.5 <= 1.6.
Proof.
  assert (generate_combinations Scenario.store_A 5000 Scenario.prices_A
          = [build 5000 Scenario.prices_A ["sofa"; "table"]%string
               [Scenario.S1; Scenario.T1];
             build 5000 Scenario.prices_A ["sofa"; "table"]%string
               [Scenario.S2; Scenario.T1]]) as Hgc by (by vm_compute).
  split; [exact Hgc|].
  pose proof (first_is_best Scenario.store_A 5000 Scenario.prices_A _ _
                (build 5000 Scenario.prices_A ["sofa"; "table"]%string
                   [Scenario.S2; Scenario.T1]) Hgc) as Hbest.
  assert (total_similarity
            (build 5000 Scenario.prices_A ["sofa"; "table"]%string
               [Scenario.S2; Scenario.T1])
          <= total_similarity
               (build 5000 Scenario.prices_A ["sofa"; "table"]%string
                  [Scenario.S1; Scenario.T1])) as Hle.
  { apply Hbest.
    - vm_compute. apply list_elem_of_further, list_elem_of_here.
    - by vm_compute. }
  by vm_compute in Hle |- *.
Defined.

Lemma nothing_to_return_witness :
  generate_combinations Scenario.store_A 0 Scenario.prices_A = []
  ∧ generate_combinations [] 1600 Scenario.prices_A = [].
Proof.
  split.
  - apply nothing_to_return. left. by vm_compute.
  - apply nothing_to_return. by right.
Defined.

Lemma larger_budget_keeps_combinations_witness :
  Scenario.combo_S1_T1
    ∈ generate_combinations Scenario.store_A 1600 Scenario.prices_A
  ∧ build 2000 Scenario.prices_A ["sofa"; "table"]%string [Scenario.S1; Scenario.T1]
      ∈ generate_combinations Scenario.store_A 2000 Scenario.prices_A.
Proof.
  assert (Scenario.combo_S1_T1
          ∈ generate_combinations Scenario.store_A 1600 Scenario.prices_A) as Hin.
  { vm_compute. apply list_elem_of_here. }
  split; [exact Hin|].
  apply (larger_budget_keeps_combinations Scenario.store_A Scenario.prices_A
           1600 2000 _ ltac:(by vm_compute) Hin).
Defined.

Lemma no_combination_twice_witness :
  NoDup (generate_combinations Scenario.store_A 1600 Scenario.prices_A).
Proof.
  apply no_combination_twice. intros ft pool.
  unfold Scenario.store_A. cbn.
  case_decide.
  { intros [= <-]. apply NoDup_cons. split; [|apply NoDup_singleton].
    by intros [=]%list_elem_of_singleton. }
  case_decide; [|done].
  intros [= <-]. apply NoDup_singleton.
Defined.

(** ** The rows of the result file *)

Lemma save_combinations_from (n : nat) (combinations : list combination) :
  (zip (seq n (length combinations)) combinations
     ≫= λ '(i, combination),
          items combination
          ≫= λ item,
               [CsvRow (S i) (total_price combination)
                       (total_similarity combination)
                       (budget_remaining combination) (d_furniture_type item)
                       (d_catalog_number item) (d_similarity_score item)
                       (d_rank item) (d_price item)])
  = mjoin (imap (λ i c, rows_of (n + i) c) combinations).
Proof.
  revert n. induction combinations as [|c cs IH]; intros n; [done|].
  cbn [length seq zip zip_with imap mjoin list_join]. rewrite bind_cons. f_equal.
  - unfold rows_of. rewrite Nat.add_0_r.
    induction (items c) as [|item l IHl]; [done|]. cbn. by f_equal.
  - rewrite IH. f_equal. apply imap_ext. intros i c' _. cbn. f_equal. lia.
Qed.

Lemma save_combinations_rows (combinations : list combination) :
  save_combinations_to_csv combinations = mjoin (imap rows_of combinations).
Proof. apply (save_combinations_from 0). Qed.

Lemma filter_rows_of (i n : nat) (c : combination) :
  filter (λ row, combination_rank row = S i) (rows_of n c)
  = if decide (n = i) then rows_of n c else [].
Proof.
  unfold rows_of. induction (items c) as [|item l IH].
  - by destruct (decide (n = i)).
  - rewrite fmap_cons, filter_cons, IH. cbn [combination_rank].
    destruct (decide (n = i)) as [->|Hne].
    + by rewrite decide_True.
    + rewrite decide_False; [done|]. by intros [=].
Qed.

Lemma filter_rows_from (k i : nat) (combinations : list combination) :
  filter (λ row, combination_rank row = S i)
         (mjoin (imap (λ j c, rows_of (k + j) c) combinations))
  = match combinations !! (i - k)%nat with
    | Some c => if decide (k ≤ i)%nat then rows_of i c else []
    | None => []
    end.
Proof.
  revert k. induction combinations as [|c0 cs IH]; intros k; [done|].
  cbn [imap mjoin list_join]. rewrite filter_app, filter_rows_of.
  rewrite (imap_ext _ (λ j c, rows_of (S k + j) c))
    by (intros j c _; cbn; f_equal; lia).
  rewrite IH. rewrite Nat.add_0_r.
  destruct (decide (k = i)) as [->|Hne].
  - rewrite Nat.sub_diag. cbn [lookup list_lookup].
    rewrite decide_True by lia.
    destruct (cs !! (i - S i)%nat); [rewrite decide_False by lia|];
      by rewrite app_nil_r.
  - cbn [app]. destruct (decide (k ≤ i)%nat) as [Hle|Hgt].
    + replace (i - k)%nat with (S (i - S k)) by lia. cbn [lookup list_lookup].
      destruct (cs !! (i - S k)%nat); [|done]. by rewrite decide_True by lia.
    + replace (i - k)%nat with 0%nat by lia. cbn [lookup list_lookup].
      destruct (cs !! (i - S k)%nat); [|done]. by rewrite decide_False by lia.
Qed.

(** X10. The result file can be read back: the rows whose
    [combination_rank] is [i + 1] are the rows of the combination at
    position [i], one per item in order, each with that combination's
    totals; every rank lies between 1 and the number of combinations. *)
Theorem rows_of_rank (combinations : list combination) (i : nat) (c : combination) :
  combinations !! i = Some c →
  filter (λ row, combination_rank row = S i)
         (save_combinations_to_csv combinations)
  = rows_of i c
  ∧ Forall (λ row, 1 ≤ combination_rank row ≤ length combinations)%nat
           (save_combinations_to_csv combinations).
Proof.
  intros Hc. rewrite save_combinations_rows. split.
  - rewrite (filter_rows_from 0 i). rewrite Nat.sub_0_r, Hc.
    by rewrite decide_True by lia.
  - apply Forall_forall. intros row (rows & Hrow & Hrows)%list_elem_of_join.
    apply list_elem_of_lookup in Hrows as (j & Hj).
    rewrite list_lookup_imap in Hj.
    destruct (combinations !! j) as [cj|] eqn:Hcj; [|done].
    injection Hj as <-. unfold rows_of in Hrow.
    apply list_elem_of_fmap in Hrow as (item & -> & _). cbn.
    apply lookup_lt_Some in Hcj. lia.
Qed.

Lemma rows_of_rank_witness :
  filter (λ row, combination_rank row = 1%nat)
         (save_combinations_to_csv [Scenario.combo_S1_T1])
  = rows_of 0 Scenario.combo_S1_T1.
Proof. apply (rows_of_rank [Scenario.combo_S1_T1] 0 _ eq_refl). Defined.

(** X11. The file written for a result has one row for each returned
    combination and furniture type. *)
Theorem row_count (similarity_results : dict (list candidate)) (budget : Q)
    (price_lookup : gmap string Q) :
  let combinations :=
    generate_combinations similarity_results budget price_lookup in
  length (save_combinations_to_csv combinations)
  = (length combinations * length similarity_results)%nat.
Proof.
  intros combinations. rewrite save_combinations_rows.
  assert (Forall (λ c, length (items c) = length similarity_results) combinations)
    as Hall.
  { apply Forall_forall. intros c [_ Hraw]%elem_of_generate_combinations.
    apply elem_of_raw_combinations in Hraw as (combo & -> & _ & Hlen).
    cbn. rewrite details_length by done. unfold keys. by rewrite length_fmap. }
  assert (∀ g : nat → combination → list csv_row,
            (∀ i c, length (g i c) = length (items c)) →
            length (mjoin (imap g combinations))
            = (length combinations * length similarity_results)%nat) as Hgen.
  { induction Hall as [|c cs Hc _ IH]; intros g Hg; [done|].
    change (mjoin (imap g (c :: cs)))
      with (g 0%nat c ++ mjoin (imap (g ∘ S) cs)).
    rewrite length_app, Hg, Hc.
    rewrite (IH (g ∘ S)) by (intros; apply Hg). cbn [length]. lia. }
  apply Hgen. intros i c. unfold rows_of. by rewrite length_fmap.
Qed.

(** ** The master query log *)

Lemma last_filter_Some {A} (P : A → Prop) `{!∀ x, Decision (P x)}
    (l : list A) (x : A) :
  last (filter P l) = Some x ↔
  ∃ pre post, l = pre ++ x :: post ∧ P x ∧ Forall (λ y, ¬ P y) post.
Proof.
  induction l as [|y l IH] using rev_ind.
  - split; [done|]. intros (pre & post & Hl & _). by destruct pre.
  - rewrite filter_app, filter_cons, filter_nil.
    destruct (decide (P y)) as [Hy|Hy].
    + rewrite last_snoc. split.
      * intros [= ->]. exists l, []. by split_and!.
      * intros (pre & post & Hl & Hx & Hpost).
        destruct post as [|z post _] using rev_ind.
        { by apply app_inj_tail in Hl as [_ ->]. }
        rewrite app_comm_cons, app_assoc in Hl.
        apply app_inj_tail in Hl as [_ ->].
        apply Forall_app in Hpost as [_ [Hz _]%Forall_cons]. done.
    + rewrite app_nil_r, IH. split.
      * intros (pre & post & -> & Hx & Hpost). exists pre, (post ++ [y]).
        split_and!; [by rewrite <- app_assoc|done|].
        apply Forall_app. split; [done|]. by constructor.
      * intros (pre & post & Hl & Hx & Hpost).
        destruct post as [|z post _] using rev_ind.
        { apply app_inj_tail in Hl as [_ ->]. done. }
        rewrite app_comm_cons, app_assoc in Hl.
        apply app_inj_tail in Hl as [-> ->].
        apply Forall_app in Hpost as [Hpost _]. by exists pre, post.
Qed.

Lemma last_filter_None {A} (P : A → Prop) `{!∀ x, Decision (P x)} (l : list A) :
  last (filter P l) = None ↔ Forall (λ y, ¬ P y) l.
Proof.
  rewrite last_None. split.
  - intros Hnil. apply Forall_forall. intros y Hy HP.
    assert (y ∈ filter P l) as Hin by (by apply list_elem_of_filter).
    rewrite Hnil in Hin. by apply elem_of_nil in Hin.
  - intros Hall. induction Hall as [|y l Hy _ IH]; [done|].
    by rewrite filter_cons_False.
Qed.

Section QueryLog.
Variable py_float : string → option Q.

(** X12. [check_master_query_log] selects the last row of the log whose
    [selected_sufficed] is ["no"] in any letter case, and returns its
    request number with its parsed budget; it returns nothing exactly
    when the log is missing or has no such row. *)
Theorem latest_pending_query_selected (log : option (list query_row)) :
  (∀ query_number budget,
     check_master_query_log py_float log = Some (query_number, budget) ↔
     ∃ pre row post,
       log = Some (pre ++ row :: post)
       ∧ pending row ∧ Forall (λ later, ¬ pending later) post
       ∧ query_number = request_number row
       ∧ budget = parse_budget py_float (q_budget row))
  ∧ (check_master_query_log py_float log = None ↔
     log = None ∨ ∃ df, log = Some df ∧ Forall (λ row, ¬ pending row) df).
Proof.
  unfold check_master_query_log. destruct log as [df|]; cbn.
  - split.
    + intros qn b.
      destruct (last (filter _ df)) as [row|] eqn:Hlast; cbn.
      * apply (last_filter_Some pending) in Hlast
          as (pre & post & -> & Hrow & Hpost).
        split.
        -- intros [= <- <-]. by exists pre, row, post.
        -- intros (pre' & row' & post' & [= Hl] & Hrow' & Hpost' & -> & ->).
           assert (last (filter pending (pre ++ row :: post)) = Some row') as H.
           { apply last_filter_Some. exists pre', post'. by rewrite Hl. }
           assert (last (filter pending (pre ++ row :: post)) = Some row) as H'.
           { apply last_filter_Some. by exists pre, post. }
           rewrite H in H'. by injection H' as ->.
      * split; [done|].
        intros (pre & row & post & [= ->] & Hrow & Hpost & _).
        assert (last (filter pending (pre ++ row :: post)) = Some row) as H.
        { apply last_filter_Some. by exists pre, post. }
        unfold pending in H at 1. by rewrite Hlast in H.
    + destruct (last (filter _ df)) as [row|] eqn:Hlast; cbn.
      * split; [done|]. intros [?|(df' & [= <-] & Hall)]; [done|].
        apply (last_filter_None pending) in Hall.
        unfold pending in Hall at 1. by rewrite Hlast in Hall.
      * split; [|done]. intros _. right. exists df. split; [done|].
        by apply (last_filter_None pending).
  - split.
    + intros qn b. split; [done|]. by intros (? & ? & ? & ? & _).
    + split; [by left|done].
Qed.
End QueryLog.

(** ** Runs *)

Lemma lower_yes_not_pending : PyStr.lower "yes" ≠ "no"%string.
Proof. by vm_compute. Qed.

Section RunExtras.
Variable py_float : string → option Q.

Lemma check_selected_row (log : option (list query_row)) query_number budget :
  check_master_query_log py_float log = Some (query_number, budget) →
  ∃ df pre row post,
    log = Some df ∧ df = pre ++ row :: post
    ∧ pending row ∧ Forall (λ later, ¬ pending later) post
    ∧ request_number row = query_number.
Proof.
  unfold check_master_query_log. destruct log as [df|]; [|done]. cbn.
  destruct (last (filter _ df)) as [row|] eqn:Hlast; [|done]. cbn.
  intros [= <- _].
  apply (last_filter_Some pending) in Hlast as (pre & post & -> & Hrow & Hpost).
  by exists (pre ++ row :: post), pre, row, post.
Qed.

(** The cases of [main]. *)
Lemma main_cases (fs : files) :
  (reported (main py_float fs) = NoPendingQuery
   ∧ written (main py_float fs) = None
   ∧ log_after (main py_float fs) = master_log fs)
  ∨ ∃ query_number budget,
      check_master_query_log py_float (master_log fs)
        = Some (query_number, budget)
      ∧ query_number ≠ 0%Z
      ∧ ((load_similarity_results (similarity_csv fs query_number) = None
          ∧ main py_float fs = Run LoadFailed None (master_log fs))
         ∨ ∃ similarity_results,
             load_similarity_results (similarity_csv fs query_number)
               = Some similarity_results
             ∧ let combinations :=
                 generate_combinations similarity_results budget
                   (get_furniture_prices similarity_results (catalog_csv fs)) in
               (combinations = []
                ∧ main py_float fs
                  = Run NoCombinationsFound None
                        (update_selection_status (master_log fs)
                                                 query_number "no"))
               ∨ (combinations ≠ []
                  ∧ main py_float fs
                    = Run Success (Some (save_combinations_to_csv combinations))
                          (update_selection_status (master_log fs)
                                                   query_number "yes"))).
Proof.
  unfold main.
  destruct (check_master_query_log py_float (master_log fs))
    as [[qn budget]|] eqn:Hcheck; [|by left].
  destruct (decide (qn = 0%Z)) as [|Hqn]; [by left|].
  right. exists qn, budget. split_and!; [done..|].
  destruct (load_similarity_results (similarity_csv fs qn)) as [sr|] eqn:Hload;
    [|by left].
  right. exists sr. split; [done|]. unfold main_loaded. cbn zeta.
  rewrite decide_False.
  - destruct (generate_combinations sr budget _) as [|c cs]; [by left|by right].
  - destruct (similarity_csv fs qn) as [df|]; [|done].
    destruct (load_similarity_results_Some df _ Hload) as (_ & Hne & Hall).
    apply get_furniture_prices_not_empty; [done|].
    eapply Forall_impl; [exact Hall|]. intros entry. cbn. lia.
Qed.

(** X13. A run never reports "Failed to load furniture prices": the
    dictionary that the loader returns always yields a price, from the
    catalog or from the estimator. *)
Theorem prices_never_fail (fs : files) :
  reported (main py_float fs) ≠ PricesFailed.
Proof.
  destruct (main_cases fs) as [(-> & _)|(qn & b & _ & _ & Hrest)]; [done|].
  destruct Hrest as [[_ ->]|(sr & _ & [[_ ->]|[_ ->]])]; done.
Qed.


End RunExtras.

Section NextRun.
Variable py_float : string → option Q.

Lemma last_filter_suffix {A} (P : A → Prop) `{!∀ x, Decision (P x)}
    (pre post : list A) (x : A) :
  P x → ∃ y, last (filter P (pre ++ x :: post)) = Some y ∧ y ∈ x :: post.
Proof.
  intros Hx. rewrite filter_app, filter_cons_True by done.
  induction post as [|z post IH] using rev_ind.
  - exists x. rewrite filter_nil, last_snoc. split; [done|left].
  - destruct IH as (y & Hy & Hin).
    rewrite filter_app, filter_cons, filter_nil.
    destruct (decide (P z)).
    + exists z. rewrite (app_comm_cons _ _ x), !app_assoc, last_snoc.
      split; [done|]. rewrite app_comm_cons, elem_of_app. right. left.
    + rewrite app_nil_r. exists y. split; [done|].
      rewrite app_comm_cons, elem_of_app. by left.
Qed.

(** X15. A query for which no combination is found stays pending: after
    a run that reports "no combinations found", the next check of the
    log selects the same request number again. *)
Theorem unsatisfied_query_selected_again (fs : files) :
  reported (main py_float fs) = NoCombinationsFound →
  ∃ query_number budget budget',
    check_master_query_log py_float (master_log fs) = Some (query_number, budget)
    ∧ check_master_query_log py_float (log_after (main py_float fs))
      = Some (query_number, budget').
Proof.
  intros Hrep.
  destruct (main_cases py_float fs)
    as [(Hrep' & _)|(qn & b & Hcheck & Hqn & Hrest)]; [congruence|].
  destruct Hrest as [[_ Hmain]|(sr & _ & [[_ Hmain]|[_ Hmain]])];
    rewrite Hmain in Hrep |- *; try done. clear Hrep Hmain.
  destruct (check_selected_row py_float _ _ _ Hcheck)
    as (df & pre & row & post & Hlog & -> & Hrow & Hpost & Hreq).
  rewrite Hlog. cbn [log_after update_selection_status fmap option_fmap option_map].
  set (f := λ r : query_row,
         if decide (request_number r = qn)
         then QueryRow (request_number r) "no" (q_budget r) else r).
  rewrite fmap_app, fmap_cons.
  destruct (last_filter_suffix pending (f <$> pre) (f <$> post) (f row))
    as (y & Hlast & Hy).
  { unfold f. by rewrite decide_True. }
  exists qn, b, (parse_budget py_float (q_budget y)).
  split; [by rewrite <- Hlog|].
  unfold check_master_query_log. cbn [mbind option_bind].
  change (filter _ (?l)) with (filter pending l). rewrite Hlast. cbn.
  do 2 f_equal.
  apply (proj1 (last_filter_Some pending _ _)) in Hlast as (_ & _ & _ & Hpy & _).
  apply elem_of_cons in Hy as [->|(r & -> & Hr)%list_elem_of_fmap].
  - unfold f. by rewrite decide_True.
  - unfold f in *. destruct (decide (request_number r = qn)); [done|].
    by eapply Forall_forall in Hpost.
Qed.

(** X16. A query that is answered is not selected again: after a run
    that reports success, no check of the log returns its request number. *)
Theorem answered_query_not_selected_again (fs : files) :
  reported (main py_float fs) = Success →
  ∃ query_number budget,
    check_master_query_log py_float (master_log fs) = Some (query_number, budget)
    ∧ ∀ budget',
        check_master_query_log py_float (log_after (main py_float fs))
        ≠ Some (query_number, budget').
Proof.
  intros Hrep.
  destruct (main_cases py_float fs)
    as [(Hrep' & _)|(qn & b & Hcheck & Hqn & Hrest)]; [congruence|].
  destruct Hrest as [[_ Hmain]|(sr & _ & [[_ Hmain]|[_ Hmain]])];
    rewrite Hmain in Hrep |- *; try done. clear Hrep Hmain.
  exists qn, b. split; [done|]. intros b' Hcheck'.
  apply check_selected_row in Hcheck'
    as (df' & pre' & row' & post' & Hlog' & -> & Hrow' & _ & Hreq').
  destruct (master_log fs) as [df|]; [|done]. cbn in Hlog'.
  injection Hlog' as Hlog'.
  assert (row' ∈ (λ r : query_row,
                    if decide (request_number r = qn)
                    then QueryRow (request_number r) "yes" (q_budget r) else r)
                 <$> df) as Hin.
  { rewrite Hlog'. apply elem_of_app. right. left. }
  apply list_elem_of_fmap in Hin as (r & -> & _).
  destruct (decide (request_number r = qn)) as [|Hne]; [|done].
  by apply lower_yes_not_pending in Hrow'.
Qed.
End NextRun.

Lemma written_rows_within_budget_witness :
  let float_1600 (s : string) : option Q :=
    if decide (s = "1600"%string) then Some 1600 else None in
  let fs := Files (Some [QueryRow 7 "No" "$1,600"]) (similarity_csv Run.fs)
                  Run.catalog in
  ∃ rows, written (main float_1600 fs) = Some rows
          ∧ Forall (λ row, c_total_price row <= 1600) rows.
Proof.
  intros float_1600 fs.
  assert (∃ rows, written (main float_1600 fs) = Some rows) as [rows Hrows].
  { eexists. reflexivity. }
  exists rows. split; [exact Hrows|].
  destruct (written_rows_within_budget float_1600 fs rows Hrows)
    as (qn & b & Hcheck & _ & Hall).
  assert (b = 1600) as -> by (vm_compute in Hcheck; by injection Hcheck).
  apply Forall_forall. intros row Hrow. by apply Hall.
Defined.

Lemma unsatisfied_query_selected_again_witness :
  reported (main Run.no_float Run.fs) = NoCombinationsFound
  ∧ ∃ budget',
      check_master_query_log Run.no_float (log_after (main Run.no_float Run.fs))
      = Some (7%Z, budget').
Proof.
  assert (reported (main Run.no_float Run.fs) = NoCombinationsFound) as Hrep
    by reflexivity.
  split; [exact Hrep|].
  destruct (unsatisfied_query_selected_again Run.no_float Run.fs Hrep)
    as (qn & b & b' & Hcheck & Hnext).
  assert (qn = 7%Z) as -> by (vm_compute in Hcheck; by injection Hcheck).
  by exists b'.
Defined.

Lemma answered_query_not_selected_again_witness :
  let float_1600 (s : string) : option Q :=
    if decide (s = "1600"%string) then Some 1600 else None in
  let fs := Files (Some [QueryRow 7 "No" "$1,600"]) (similarity_csv Run.fs)
                  Run.catalog in
  reported (main float_1600 fs) = Success
  ∧ check_master_query_log float_1600 (log_after (main float_1600 fs)) = None.
Proof.
  intros float_1600 fs.
  assert (reported (main float_1600 fs) = Success) as Hrep by reflexivity.
  split; [exact Hrep|].
  destruct (answered_query_not_selected_again float_1600 fs Hrep)
    as (qn & b & _ & Hnext).
  destruct (check_master_query_log float_1600 (log_after (main float_1600 fs)))
    as [[qn' b']|] eqn:Hcheck; [|done].
  vm_compute in Hcheck. discriminate Hcheck.
Defined.

(** ** The budget string *)

Lemma replace_char (c : ascii) (s : string) :
  PyStr.replace (String c EmptyString) "" s = without c s.
Proof.
  unfold PyStr.replace. induction s as [|a s IH]; [done|].
  cbn [PyStr.replace_from String.prefix String.length Nat.sub without].
  destruct (ascii_dec c a) as [->|Hne].
  - rewrite decide_True by done. destruct s; apply IH.
  - rewrite decide_False by (by intros ->). by rewrite IH.
Qed.

Lemma without_app (c : ascii) (s1 s2 : string) :
  without c (s1 +:+ s2) = without c s1 +:+ without c s2.
Proof.
  induction s1 as [|a s1 IH]; [done|].
  change (String a s1 +:+ s2) with (String a (s1 +:+ s2)). cbn [without].
  destruct (decide (a = c)); [exact IH|].
  change (String a (without c s1) +:+ without c s2)
    with (String a (without c s1 +:+ without c s2)). by rewrite IH.
Qed.

Lemma list_ascii_app (s1 s2 : string) :
  list_ascii_of_string (s1 +:+ s2)
  = list_ascii_of_string s1 ++ list_ascii_of_string s2.
Proof.
  induction s1 as [|a s1 IH]; [done|].
  change (String a s1 +:+ s2) with (String a (s1 +:+ s2)).
  cbn [list_ascii_of_string app]. by rewrite IH.
Qed.

Lemma lstrip_list_app (l k : list ascii) :
  PyStr.lstrip_list (l ++ k)
  = match PyStr.lstrip_list l with
    | [] => PyStr.lstrip_list k
    | _ :: _ => PyStr.lstrip_list l ++ k
    end.
Proof.
  induction l as [|a l IH]; [done|]. cbn.
  destruct (PyStr.is_space a); [apply IH|done].
Qed.

Lemma strip_leading_space (s : string) :
  PyStr.strip (" " +:+ s) = PyStr.strip s.
Proof. reflexivity. Qed.

Lemma strip_trailing_space (s : string) :
  PyStr.strip (s +:+ " ") = PyStr.strip s.
Proof.
  unfold PyStr.strip. f_equal. rewrite list_ascii_app, lstrip_list_app.
  cbn [list_ascii_of_string].
  destruct (PyStr.lstrip_list (list_ascii_of_string s)) as [|a l] eqn:Hl; [done|].
  rewrite <- Hl. rewrite rev_app_distr. reflexivity.
Qed.

Section BudgetString.
Variable py_float : string → option Q.

(** X17. [parse_budget] ignores every dollar sign and every comma,
    wherever it stands in the string, and blanks at both ends: the
    budget is the one parsed from the string without them. *)
Theorem budget_decoration_ignored (s1 s2 : string) :
  parse_budget py_float (s1 +:+ "$" +:+ s2) = parse_budget py_float (s1 +:+ s2)
  ∧ parse_budget py_float (s1 +:+ "," +:+ s2) = parse_budget py_float (s1 +:+ s2)
  ∧ parse_budget py_float (" " +:+ s1) = parse_budget py_float s1
  ∧ parse_budget py_float (s1 +:+ " ") = parse_budget py_float s1.
Proof.
  assert (∀ s, parse_budget py_float s
               = default 0 (py_float (PyStr.strip
                   (without ","%char (without "$"%char s))))) as Hparse.
  { intros s. unfold parse_budget.
    change "$"%string with (String "$"%char EmptyString).
    change ","%string with (String ","%char EmptyString).
    by rewrite !replace_char. }
  assert (∀ t1 t2, without ","%char (without "$"%char (t1 +:+ t2))
                   = without ","%char (without "$"%char t1)
                     +:+ without ","%char (without "$"%char t2)) as Happ.
  { intros t1 t2. by rewrite !without_app. }
  rewrite !Hparse, !Happ.
  change (without ","%char (without "$"%char "$")) with EmptyString.
  change (without ","%char (without "$"%char ",")) with EmptyString.
  change (without ","%char (without "$"%char " ")) with " "%string.
  change (EmptyString +:+ ?s) with s.
  split_and!; [done..| |].
  - by rewrite strip_leading_space.
  - by rewrite strip_trailing_space.
Qed.
End BudgetString.

(** ** The loaded dictionary *)

Section LoaderExtras.
Variable df : list similarity_row.

Lemma load_fold_getitem (names : list string)
    (similarity_results : dict (list candidate)) (ft : string) :
  getitem (foldl (λ similarity_results image_name,
                    setitem similarity_results (furniture_type_of image_name)
                            (top_results df image_name))
                 similarity_results names) ft
  = match last (filter (λ name, furniture_type_of name = ft) names) with
    | Some name => Some (top_results df name)
    | None => getitem similarity_results ft
    end.
Proof.
  revert similarity_results.
  induction names as [|name names IH]; intros sr; [done|].
  cbn [foldl]. rewrite IH, getitem_setitem, filter_cons.
  destruct (decide (furniture_type_of name = ft)) as [Hft|Hft].
  - rewrite last_cons.
    destruct (last (filter _ names)); [done|]. by rewrite decide_True.
  - destruct (last (filter _ names)); [done|]. by rewrite decide_False.
Qed.

Lemma load_fold_keys (names : list string)
    (similarity_results : dict (list candidate)) :
  keys (foldl (λ similarity_results image_name,
                 setitem similarity_results (furniture_type_of image_name)
                         (top_results df image_name))
              similarity_results names)
  = foldl (λ seen x, if decide (x ∈ seen) then seen else seen ++ [x])
          (keys similarity_results) (furniture_type_of <$> names).
Proof.
  revert similarity_results.
  induction names as [|name names IH]; intros sr; [done|].
  cbn [foldl fmap list_fmap]. by rewrite IH, keys_setitem.
Qed.

(** X18. The loaded dictionary has one key per furniture type, in the
    order in which the types first occur in the file, and under each
    type the first three rows of the last image name of that type: an
    image name read later replaces the entries of an earlier one that
    gives the same furniture type. *)
Theorem loaded_entries (similarity_results : dict (list candidate)) :
  load_similarity_results (Some df) = Some similarity_results →
  let image_names := unique (r_image_name <$> df) in
  keys similarity_results = unique (furniture_type_of <$> image_names)
  ∧ ∀ ft,
      getitem similarity_results ft
      = top_results df
          <$> last (filter (λ name, furniture_type_of name = ft) image_names).
Proof.
  destruct (decide (df = [])) as [->|Hdf]; [done|].
  rewrite load_similarity_results_eq by done. intros [= <-] image_names.
  split.
  - apply (load_fold_keys image_names []).
  - intros ft. rewrite load_fold_getitem. by destruct (last _).
Qed.
End LoaderExtras.

Lemma loaded_entries_witness :
  let df := Run.results
            ++ [SimilarityRow "sofa" "S9" 0.5 1;
                SimilarityRow "lamp_extracted_grayscale.png" "L1" 0.4 1] in
  load_similarity_results (Some df)
  = Some [("sofa"%string, [Candidate "S9" 0.5 1]);
          ("table"%string, [Scenario.T1]);
          ("lamp"%string, [Candidate "L1" 0.4 1])]
  ∧ keys [("sofa"%string, [Candidate "S9" 0.5 1]);
          ("table"%string, [Scenario.T1]);
          ("lamp"%string, [Candidate "L1" 0.4 1])]
    = ["sofa"; "table"; "lamp"]%string.
Proof.
  intros df.
  assert (load_similarity_results (Some df)
          = Some [("sofa"%string, [Candidate "S9" 0.5 1]);
                  ("table"%string, [Scenario.T1]);
                  ("lamp"%string, [Candidate "L1" 0.4 1])]) as Hload
    by reflexivity.
  split; [exact Hload|].
  rewrite (proj1 (loaded_entries df _ Hload)). reflexivity.
Defined.

(** ** Catalog prices and estimated prices *)

(** X19. In the price lookup built from the master catalog a catalog
    number has the price of the last row that has this number and a
    price; rows without a price are skipped and erase nothing. *)
Theorem catalog_last_price_wins (rows : list catalog_row) (k : string) :
  load_catalog_prices rows !! k
  = last (omap (λ row : catalog_row,
                  if decide (row.1 = k) then row.2 else None) rows).
Proof.
  unfold load_catalog_prices.
  induction rows as [|[k' p] rows IH] using rev_ind; [done|].
  rewrite foldl_app, omap_app, last_app. cbn [foldl omap list_omap fst snd].
  destruct (decide (k' = k)) as [->|Hne]; destruct p as [price|];
    cbn [last]; rewrite <- ?IH.
  - by rewrite lookup_insert_eq.
  - done.
  - by rewrite lookup_insert_ne.
  - done.
Qed.

Lemma count_matches_lengths (similarity_results : dict (list candidate))
    (price_lookup : gmap string Q) :
  count_matches similarity_results price_lookup
  = (length (filter (λ item, is_Some (price_lookup !! catalog_number item))
                    (similarity_results ≫= snd)),
     length (similarity_results ≫= snd)).
Proof.
  unfold count_matches.
  assert (∀ (items : list candidate) (m t : nat),
            foldl (λ '(matched_items, total_items) item,
                     (if decide (is_Some (price_lookup !! catalog_number item))
                      then S matched_items else matched_items,
                      S total_items))
                  (m, t) items
            = ((m + length (filter (λ item, is_Some (price_lookup
                                                       !! catalog_number item))
                                   items))%nat,
               (t + length items)%nat)) as Hinner.
  { intros pool. induction pool as [|item pool IH]; intros m t.
    - cbn. f_equal; lia.
    - cbn [foldl]. rewrite IH, filter_cons.
      destruct (decide (is_Some _)); cbn [length]; f_equal; lia. }
  assert (∀ m t,
            foldl (λ counts '(furniture_type, items),
                     foldl (λ '(matched_items, total_items) item,
                              (if decide (is_Some (price_lookup
                                                     !! catalog_number item))
                               then S matched_items else matched_items,
                               S total_items))
                           counts items)
                  (m, t) similarity_results
            = ((m + length (filter (λ item, is_Some (price_lookup
                                                       !! catalog_number item))
                                   (similarity_results ≫= snd)))%nat,
               (t + length (similarity_results ≫= snd))%nat)) as Houter.
  { induction similarity_results as [|[ft items] sr IH].
    - intros m t. cbn. f_equal; lia.
    - intros m t. cbn [foldl]. rewrite Hinner, IH, bind_cons, filter_app, !length_app.
      cbn [snd]. f_equal; lia. }
  apply (Houter 0%nat 0%nat).
Qed.

(** X20. [get_furniture_prices] prices all or nothing from the catalog.
    If the catalog has a price for at least one candidate, the catalog
    prices are returned unchanged, and a candidate that the catalog does
    not price has no entry.  If the catalog file is missing, or prices
    no candidate, the estimated prices are returned. *)
Theorem catalog_or_estimates (similarity_results : dict (list candidate))
    (catalog : option (list catalog_row)) :
  (∀ rows item,
     catalog = Some rows →
     item ∈ similarity_results ≫= snd →
     is_Some (load_catalog_prices rows !! catalog_number item) →
     get_furniture_prices similarity_results catalog = load_catalog_prices rows
     ∧ ∀ other, load_catalog_prices rows !! catalog_number other = None →
                get_furniture_prices similarity_results catalog
                  !! catalog_number other = None)
  ∧ (catalog = None
     ∨ (∃ rows, catalog = Some rows
                ∧ Forall (λ item, load_catalog_prices rows
                                    !! catalog_number item = None)
                         (similarity_results ≫= snd)) →
     get_furniture_prices similarity_results catalog
     = _get_estimated_prices similarity_results).
Proof.
  split.
  - intros rows item -> Hitem Hprice.
    assert (get_furniture_prices similarity_results (Some rows)
            = load_catalog_prices rows) as Heq.
    { apply get_furniture_prices_partial. rewrite count_matches_lengths. cbn.
      assert (item ∈ filter (λ item, is_Some (load_catalog_prices rows
                                                !! catalog_number item))
                            (similarity_results ≫= snd)) as Hin
        by (by apply list_elem_of_filter).
      destruct (filter _ _); [by apply elem_of_nil in Hin|done]. }
    split; [done|]. intros other. by rewrite Heq.
  - intros [->|(rows & -> & Hall)]; [done|].
    unfold get_furniture_prices. rewrite count_matches_lengths.
    rewrite decide_True; [done|].
    induction Hall as [|item items Hitem _ IH]; [done|].
    rewrite filter_cons_False; [done|]. rewrite Hitem. by intros [? ?].
Qed.

Lemma catalog_or_estimates_witness :
  get_furniture_prices Gap.store Gap.catalog
  = load_catalog_prices [("S1"%string, Some 1000)]
  ∧ get_furniture_prices Gap.store Gap.catalog !! "T1"%string = None
  ∧ get_furniture_prices Gap.store None = _get_estimated_prices Gap.store.
Proof.
  destruct (catalog_or_estimates Gap.store Gap.catalog) as [Hcat _].
  destruct (Hcat [("S1"%string, Some 1000)] Scenario.S1 eq_refl) as [Heq Hnone].
  - apply list_elem_of_here.
  - eexists. by vm_compute.
  - split; [exact Heq|]. split.
    + apply (Hnone Scenario.T1). by vm_compute.
    + apply (catalog_or_estimates Gap.store None). by left.
Defined.

(** ** Bounds of the estimates *)

Lemma estimate_le (furniture_type : string) (r1 r2 : Z) :
  (r1 <= r2)%Z →
  _get_estimated_price_for_type furniture_type r2
  <= _get_estimated_price_for_type furniture_type r1.
Proof.
  intros [Hlt| ->]%Z.le_lteq.
  - by apply Qlt_le_weak, estimate_decreasing.
  - apply Qle_refl.
Qed.

Ltac estimate_cases furniture_type :=
  let Hcases := fresh "Hcases" in
  let lo := fresh "lo" in
  let hi := fresh "hi" in
  rewrite ?(estimate_unfold furniture_type);
  pose proof (price_range_for_cases furniture_type) as Hcases;
  destruct (price_range_for furniture_type) as [lo hi];
  repeat (apply elem_of_cons in Hcases as [[= -> ->]|Hcases]);
  [..|by apply elem_of_nil in Hcases].

Lemma estimate_rank_1 (furniture_type : string) :
  _get_estimated_price_for_type furniture_type 1
  == inject_Z (price_range_for furniture_type).2.
Proof. estimate_cases furniture_type; by vm_compute. Qed.

Lemma estimate_rank_4 (furniture_type : string) :
  _get_estimated_price_for_type furniture_type 4
  == inject_Z (price_range_for furniture_type).1.
Proof. estimate_cases furniture_type; by vm_compute. Qed.

Lemma estimate_rank_5 (furniture_type : string) :
  0 <= _get_estimated_price_for_type furniture_type 5.
Proof. estimate_cases furniture_type; by vm_compute. Qed.

Lemma estimate_rank_6 (furniture_type : string) :
  _get_estimated_price_for_type furniture_type 6 < 0.
Proof. estimate_cases furniture_type; by vm_compute. Qed.

Lemma min_price_at_least_100 (furniture_type : string) :
  100 <= inject_Z (price_range_for furniture_type).1.
Proof.
  pose proof (price_range_for_cases furniture_type) as Hcases.
  destruct (price_range_for furniture_type) as [lo hi].
  repeat (apply elem_of_cons in Hcases as [[= -> ->]|Hcases]);
    [by vm_compute..|].
  by apply elem_of_nil in Hcases.
Qed.

(** X21. The estimate lies within the range of the furniture type for
    the ranks 1 to 4, where rank 1 gives exactly [max_price] and rank 4
    exactly [min_price]; it is not negative up to rank 5 and it is
    negative from rank 6 on. *)
Theorem estimate_bounds (furniture_type : string) (r : Z) :
  let min_price := inject_Z (price_range_for furniture_type).1 in
  let max_price := inject_Z (price_range_for furniture_type).2 in
  _get_estimated_price_for_type furniture_type 1 == max_price
  ∧ _get_estimated_price_for_type furniture_type 4 == min_price
  ∧ ((1 <= r <= 4)%Z →
     min_price <= _get_estimated_price_for_type furniture_type r
     ∧ _get_estimated_price_for_type furniture_type r <= max_price)
  ∧ ((r <= 5)%Z → 0 <= _get_estimated_price_for_type furniture_type r)
  ∧ ((6 <= r)%Z → _get_estimated_price_for_type furniture_type r < 0).
Proof.
  intros min_price max_price.
  split_and!.
  - apply estimate_rank_1.
  - apply estimate_rank_4.
  - intros [Hlo Hhi]. split.
    + unfold min_price. rewrite <- estimate_rank_4. by apply estimate_le.
    + unfold max_price. rewrite <- estimate_rank_1. by apply estimate_le.
  - intros Hr. eapply Qle_trans; [apply estimate_rank_5|]. by apply estimate_le.
  - intros Hr. eapply Qle_lt_trans; [|apply estimate_rank_6]. by apply estimate_le.
Qed.

Lemma estimate_bounds_witness :
  inject_Z 800 <= _get_estimated_price_for_type "sofa" 3
  ∧ 0 <= _get_estimated_price_for_type "sofa" 5
  ∧ _get_estimated_price_for_type "sofa" 7 < 0.
Proof.
  destruct (estimate_bounds "sofa" 3) as (_ & _ & Hin & _).
  destruct (estimate_bounds "sofa" 5) as (_ & _ & _ & Hpos & _).
  destruct (estimate_bounds "sofa" 7) as (_ & _ & _ & _ & Hneg).
  split; [apply Hin; lia|]. split; [apply Hpos; lia|apply Hneg; lia].
Defined.

Section EstimatedMap.
Implicit Types (m : gmap string Q) (l : list (string * Q)).

Lemma foldl_insert_Some l m k v :
  foldl (λ m kv, <[kv.1 := kv.2]> m) m l !! k = Some v →
  (k, v) ∈ l ∨ m !! k = Some v.
Proof.
  revert m. induction l as [|[k' v'] l IH]; intros m; [by right|].
  cbn [foldl]. intros [Hl|Hm]%IH; [left; by right|].
  cbn in Hm. destruct (decide (k' = k)) as [->|Hne].
  - rewrite lookup_insert_eq in Hm. injection Hm as ->. left. left.
  - rewrite lookup_insert_ne in Hm by done. by right.
Qed.

Lemma foldl_insert_is_Some l m k :
  k ∈ l.*1 → is_Some (foldl (λ m kv, <[kv.1 := kv.2]> m) m l !! k).
Proof.
  revert m. induction l as [|[k' v'] l IH]; intros m Hk.
  - by apply elem_of_nil in Hk.
  - cbn [foldl]. destruct (decide (k ∈ l.*1)) as [Hin|Hnin]; [by apply IH|].
    rewrite foldl_insert_notin by done. cbn in *.
    apply elem_of_cons in Hk as [->|?]; [|done]. rewrite lookup_insert_eq. by eexists.
Qed.

Lemma estimate_assignments_inv (similarity_results : dict (list candidate)) k p :
  (k, p) ∈ estimate_assignments similarity_results →
  ∃ ft pool i item,
    (ft, pool) ∈ similarity_results ∧ pool !! i = Some item
    ∧ k = catalog_number item
    ∧ p = _get_estimated_price_for_type ft (Z.of_nat i).
Proof.
  unfold estimate_assignments.
  intros ([ft pool] & Hin & Hft)%list_elem_of_bind.
  apply list_elem_of_bind in Hin as ([i item] & [= -> ->]%list_elem_of_singleton & Hi).
  exists ft, pool, i, item. split_and!; [done| |done..].
  by apply enumerate_lookup.
Qed.

(** X22. The estimated price lookup has an entry for the catalog number
    of every candidate and for nothing else.  When no list has more
    than five candidates, every estimated price is at least 100. *)
Theorem estimates_cover_candidates (similarity_results : dict (list candidate)) :
  (∀ k, is_Some (_get_estimated_prices similarity_results !! k)
        ↔ k ∈ catalog_number <$> (similarity_results ≫= snd))
  ∧ (Forall (λ entry, length entry.2 ≤ 5)%nat similarity_results →
     ∀ k p, _get_estimated_prices similarity_results !! k = Some p → 100 <= p).
Proof.
  rewrite estimated_prices_assignments. split.
  - intros k. rewrite <- estimate_assignments_keys. split.
    + intros [p [Hin|Hempty]%foldl_insert_Some]; [|done].
      by apply (list_elem_of_fmap_2 fst) in Hin.
    + apply foldl_insert_is_Some.
  - intros Hlen k p [Hin|Hempty]%foldl_insert_Some; [|done].
    apply estimate_assignments_inv in Hin
      as (ft & pool & i & item & Hft & Hitem & _ & ->).
    eapply Forall_forall in Hlen; [|exact Hft]. cbn in Hlen.
    apply lookup_lt_Some in Hitem.
    eapply Qle_trans; [|apply (estimate_le ft _ 4); lia].
    rewrite estimate_rank_4. apply min_price_at_least_100.
Qed.
End EstimatedMap.

Lemma estimates_cover_candidates_witness :
  _get_estimated_prices Scenario.store_A !! "T1"%string = Some 1500.00
  ∧ 100 <= 1500.00.
Proof.
  assert (_get_estimated_prices Scenario.store_A !! "T1"%string = Some 1500.00)
    as Hlookup by (by vm_compute).
  split; [exact Hlookup|].
  apply (proj2 (estimates_cover_candidates Scenario.store_A)) with "T1"%string;
    [|exact Hlookup].
  repeat constructor; cbn; lia.
Defined.

(** ** Names and prices that do not matter *)

Lemma lower_ascii_idemp (c : ascii) :
  PyStr.lower_ascii (PyStr.lower_ascii c) = PyStr.lower_ascii c.
Proof. destruct c as [[] [] [] [] [] [] [] []]; reflexivity. Qed.

Lemma lower_idemp (s : string) : PyStr.lower (PyStr.lower s) = PyStr.lower s.
Proof.
  induction s as [|c s IH]; [done|]. cbn. by rewrite lower_ascii_idemp, IH.
Qed.

(** X23. The estimator does not distinguish letter case in the furniture
    type, and a type that is not in the table, in lower case, is priced
    as a chair. *)
Theorem estimate_ignores_case (furniture_type : string) (r : Z) :
  _get_estimated_price_for_type (PyStr.lower furniture_type) r
  = _get_estimated_price_for_type furniture_type r
  ∧ (price_ranges !! PyStr.lower furniture_type = None →
     _get_estimated_price_for_type furniture_type r
     = _get_estimated_price_for_type "chair" r).
Proof.
  unfold _get_estimated_price_for_type, price_range_for.
  rewrite lower_idemp. split; [done|]. by intros ->.
Qed.

Lemma estimate_ignores_case_witness :
  _get_estimated_price_for_type "ottoman" 1
  = _get_estimated_price_for_type "chair" 1.
Proof. apply (estimate_ignores_case "ottoman" 1). reflexivity. Defined.

Section IrrelevantPrices.
Variable similarity_results : dict (list candidate).
Variable budget : Q.

Lemma build_ext (prices1 prices2 : gmap string Q) fts (combo : list candidate) :
  Forall (λ item, prices1 !! catalog_number item
                  = prices2 !! catalog_number item) combo →
  build budget prices1 fts combo = build budget prices2 fts combo.
Proof.
  intros Hall.
  assert (Forall (λ item, price_of prices1 item = price_of prices2 item) combo)
    as Hprices.
  { eapply Forall_impl; [exact Hall|]. intros item Hitem.
    unfold price_of. by rewrite Hitem. }
  clear Hall.
  assert (sum_prices prices1 combo = sum_prices prices2 combo) as Hsum.
  { unfold sum_prices. generalize (0 : Q).
    induction Hprices as [|item combo Hitem _ IH]; intros acc; [done|].
    cbn [foldl]. rewrite Hitem. apply IH. }
  unfold build. rewrite Hsum. f_equal.
  clear Hsum. revert fts. induction Hprices as [|item combo Hitem _ IH];
    intros [|ft fts]; [done..|].
  cbn [zip_with]. unfold detail_of at 1 3. rewrite Hitem. f_equal. apply IH.
Qed.

(** X24. The result depends on the price lookup only through the catalog
    numbers of the candidates: two lookups that agree on them give the
    same list of combinations. *)
Theorem other_prices_irrelevant (prices1 prices2 : gmap string Q) :
  (∀ item, item ∈ similarity_results ≫= snd →
           prices1 !! catalog_number item = prices2 !! catalog_number item) →
  generate_combinations similarity_results budget prices1
  = generate_combinations similarity_results budget prices2.
Proof.
  intros Hagree. rewrite !generate_combinations_eq. do 2 f_equal.
  unfold raw_combinations. apply list_fmap_ext. intros i combo Hcombo.
  apply build_ext, Forall_forall. intros item Hitem. apply Hagree.
  apply list_elem_of_lookup_2, product_elem_of in Hcombo.
  unfold pools in Hcombo. apply Forall2_fmap_l in Hcombo.
  clear Hagree. revert Hitem.
  assert (∀ fts, Forall (λ ft, ft ∈ keys similarity_results) fts →
            Forall2 (λ ft item',
                       item' ∈ default [] (getitem similarity_results ft))
                    fts combo →
            item ∈ combo → item ∈ similarity_results ≫= snd) as Hgen.
  { clear Hcombo. intros fts Hkeys Hsel.
    induction Hsel as [|ft item' fts combo Hin _ IH]; [by intros ?%elem_of_nil|].
    apply Forall_cons in Hkeys as [Hft Hkeys].
    intros [->|Hitem]%elem_of_cons; [|by apply IH].
    destruct (getitem_keys _ _ Hft) as [pool Hpool]. rewrite Hpool in Hin.
    apply list_elem_of_bind. exists (ft, pool). split; [done|].
    by apply getitem_elem_of. }
  apply (Hgen (keys similarity_results)); [by apply Forall_forall|done].
Qed.
End IrrelevantPrices.

Lemma other_prices_irrelevant_witness :
  generate_combinations Scenario.store_A 1600 (<["X9"%string := 5]> Scenario.prices_A)
  = generate_combinations Scenario.store_A 1600 Scenario.prices_A.
Proof.
  apply other_prices_irrelevant. intros item Hitem.
  apply lookup_insert_ne. intros Heq.
  unfold Scenario.store_A in Hitem. cbn in Hitem.
  repeat (apply elem_of_cons in Hitem as [->|Hitem]; [discriminate Heq|]).
  by apply elem_of_nil in Hitem.
Defined.
